(** * learning_ai_opponent.py: the learning dice opponent

    A shallow embedding of [BetaTracker], [OpponentProfile], [LinUCB] and
    [LearningAIDiceOpponent], followed by the properties of the engine.

    Conventions of the embedding.
    - Numbers are exact rationals [Q] in the embedding of the engine:
      its statements say which operations are performed and which branch
      is taken. What depends on rounding is stated over binary64 floats,
      on a second reading of [BetaTracker] and [LinUCB.update]
      ([BetaTracker64], [LinUCB64]).
    - Dictionaries keyed by strings are [gmap string _]; the [contexts]
      dictionary handed to [LinUCB.choose] is an association list, since
      its iteration order decides ties.
    - A method that mutates the engine is a function [t -> t * result A]:
      the state survives an exception, as it does in Python.
    - The calls to [random] are inputs: one field of [Draws] per call
      site (each site runs at most once per call of [decide_action]).
    - [numpy.linalg.inv] and [numpy.sqrt] are parameters ([Numpy]).
    - [_make_context] is looked up on the engine by [decide_action] but
      no class of the source file defines it: the attribute is an
      optional input of [decide_action], [None] in the source as it is,
      and looking it up then raises [AttributeError]. *)

From Stdlib Require Import QArith Qabs Lqa ZArith String List Lia.
From Stdlib Require Floats Uint63.
From stdpp Require Import gmap strings list fin_maps.

(** ** Exceptions and results *)

Inductive exn : Type :=
  | AssertionError
  | ZeroDivisionError
  | ValueError
  | LinAlgError
  | TypeError
  | AttributeError.

Inductive result (A : Type) : Type :=
  | Ok (a : A)
  | Err (e : exn).
Arguments Ok {A} a.
Arguments Err {A} e.

Definition rbind {A B} (r : result A) (k : A -> result B) : result B :=
  match r with
  | Ok a => k a
  | Err e => Err e
  end.

Declare Scope result_scope.
Delimit Scope result_scope with result.
Notation "x <- r ;; k" := (rbind r (fun x => k))
  (at level 100, r at next level, right associativity) : result_scope.

(** [f(...)] where [f] is an attribute that may still be [None]. *)
Definition call {F} (f : option F) : result F :=
  match f with
  | Some g => Ok g
  | None => Err TypeError
  end.

(** [self.name] where the attribute [name] may be missing. *)
Definition getattr {F} (f : option F) : result F :=
  match f with
  | Some g => Ok g
  | None => Err AttributeError
  end.

(** Comparisons of rationals as booleans. *)
Definition Qltb (x y : Q) : bool := if Qlt_le_dec x y then true else false.
Definition Qleb (x y : Q) : bool := if Qlt_le_dec y x then false else true.

(** ** BetaTracker *)

Module BetaTracker.

Record t : Type := mk { alpha : Q; beta : Q }.

(** [BetaTracker()] *)
Definition default : t := mk 1 1.

(** [alpha / (alpha + beta)]; float division by zero raises. *)
Definition mean (self : t) : result Q :=
  if Qeq_bool (alpha self + beta self) 0 then Err ZeroDivisionError
  else Ok (alpha self / (alpha self + beta self))%Q.

(** [random.betavariate(alpha, beta)]: [sample] is the value drawn;
    the generator raises [ValueError] unless both parameters are
    positive. *)
Definition thompson (self : t) (sample : Q) : result Q :=
  if Qltb 0 (alpha self) && Qltb 0 (beta self) then Ok sample
  else Err ValueError.

Definition update (success : bool) (self : t) : t :=
  if success then mk (alpha self + 1) (beta self)
  else mk (alpha self) (beta self + 1).

(** A sequence of [update] calls, first call first. *)
Definition updates (l : list bool) (self : t) : t :=
  fold_left (fun s b => update b s) l self.

End BetaTracker.

(** ** OpponentProfile *)

Module OpponentProfile.

Record t : Type := mk {
  bluff_rate : gmap string BetaTracker.t;
  call_rate : BetaTracker.t;
  small_raise_pref : BetaTracker.t
}.

Definition default_bluff_rate : gmap string BetaTracker.t :=
  <["mexican" := BetaTracker.mk 1 3]>
    (<["double" := BetaTracker.mk 1 2]>
       (<["normal" := BetaTracker.mk 1 1]> ∅)).

(** [OpponentProfile()] *)
Definition default : t :=
  mk default_bluff_rate (BetaTracker.mk 1 2) (BetaTracker.mk 1 1).

(** [self.bluff_rate.get(cat, BetaTracker(1, 1))]: the mapping is not
    changed. *)
Definition bluff_get (self : t) (cat : string) : BetaTracker.t :=
  match bluff_rate self !! cat with
  | Some tr => tr
  | None => BetaTracker.mk 1 1
  end.

(** [d.setdefault(k, v)]: the mapping after the call and the value it
    returns. *)
Definition setdefault (k : string) (v : BetaTracker.t)
    (d : gmap string BetaTracker.t) : gmap string BetaTracker.t * BetaTracker.t :=
  match d !! k with
  | Some tr => (d, tr)
  | None => (<[k := v]> d, v)
  end.

End OpponentProfile.

(** ** The fragment of numpy the source uses

    A vector is a list of numbers; a 2-D array is the list of its rows.
    Operations whose operands do not fit return [None], which the
    callers turn into [ValueError]. *)

Abbreviation vec := (list Q).
Abbreviation matrix := (list (list Q)).

Module np.

(** The two library routines that are not rational functions. *)
Record Numpy : Type := {
  linalg_inv : matrix -> option matrix;  (* [None]: [LinAlgError] *)
  sqrt : Q -> Q
}.

Definition zeros (n : nat) : vec := repeat 0%Q n.

(** [np.eye(n)] *)
Fixpoint eye (n : nat) : matrix :=
  match n with
  | O => []
  | S n' => (1%Q :: zeros n') :: map (cons 0%Q) (eye n')
  end.

Fixpoint dotp (u v : vec) : Q :=
  match u, v with
  | a :: u', c :: v' => (a * c + dotp u' v')%Q
  | _, _ => 0%Q
  end.

Definition vadd (u v : vec) : vec := zip_with Qplus u v.
Definition scale (c : Q) (v : vec) : vec := map (Qmult c) v.
Definition madd (M N : matrix) : matrix := zip_with vadd M N.

Definition ncols (M : matrix) : nat := length (hd [] M).

(** All rows have [n] entries. *)
Definition rows_have (n : nat) (M : matrix) : bool :=
  forallb (fun r => length r =? n) M.

(** [u.T @ v] for two columns, as a number. *)
Definition dot (u v : vec) : option Q :=
  if length u =? length v then Some (dotp u v) else None.

(** [M @ v] for a column [v]. *)
Definition matvec (M : matrix) (v : vec) : option vec :=
  if rows_have (length v) M then Some (map (fun r => dotp r v) M) else None.

(** [x.T @ M] for a column [x]: the combination of the rows of [M]
    weighted by [x]. *)
Fixpoint rowcomb (n : nat) (x : vec) (M : matrix) : vec :=
  match x, M with
  | a :: x', r :: M' => vadd (scale a r) (rowcomb n x' M')
  | _, _ => zeros n
  end.

Definition vecmat (x : vec) (M : matrix) : option vec :=
  if (length x =? length M) && rows_have (ncols M) M
  then Some (rowcomb (ncols M) x M) else None.

(** [x @ x.T] for a column [x] *)
Definition outer (x : vec) : matrix := map (fun a => scale a x) x.

(** [M += N] where [N] is [n] by [n]: a 1 by 1 operand is broadcast,
    any other must have the shape of [M]. *)
Definition iadd_square (M N : matrix) : option matrix :=
  match N with
  | [[c]] => Some (map (map (fun a => a + c)%Q) M)
  | _ =>
      if (length M =? length N) && rows_have (length N) M
      then Some (madd M N) else None
  end.

(** [u += v] for two columns: a column of one entry is broadcast. *)
Definition iadd_col (u v : vec) : option vec :=
  match v with
  | [c] => Some (map (fun a => a + c)%Q u)
  | _ => if length u =? length v then Some (vadd u v) else None
  end.

(** [np.array(rows, dtype=float)] of a list of lists: ragged input is
    refused. *)
Definition array2 (rows : matrix) : result matrix :=
  if rows_have (ncols rows) rows then Ok rows else Err ValueError.

End np.

(** ** LinUCB *)

Module LinUCB.

Record t : Type := mk {
  d : nat;
  alpha : Q;
  A : matrix;
  b : vec   (* the column [b], flattened *)
}.

(** [LinUCB(d, alpha)] *)
Definition init (d : nat) (alpha : Q) : t :=
  mk d alpha (np.eye d) (np.zeros d).

(** [max(scores, key=scores.get)] over a non-empty dictionary: the
    first key whose score is not exceeded later. *)
Fixpoint max_from (best : string) (bv : Q) (l : list (string * Q)) : string :=
  match l with
  | [] => best
  | (k, v) :: l' => if Qltb bv v then max_from k v l' else max_from best bv l'
  end.

Definition max_key (scores : list (string * Q)) : result string :=
  match scores with
  | [] => Err ValueError
  | (k, v) :: l => Ok (max_from k v l)
  end.

Section Choose.
Variable numpy : np.Numpy.

Definition _Ainv (self : t) : result matrix :=
  match np.linalg_inv numpy (A self) with
  | Some M => Ok M
  | None => Err LinAlgError
  end.

Definition shaped {X} (o : option X) : result X :=
  match o with
  | Some x => Ok x
  | None => Err ValueError
  end.

(** The body of the loop of [choose] for one context [x]. *)
Definition score (self : t) (Ainv : matrix) (theta : vec) (x : vec) : result Q :=
  (mu <- shaped (np.dot theta x) ;;
   xA <- shaped (np.vecmat x Ainv) ;;
   q <- shaped (np.dot xA x) ;;
   let bonus := (alpha self * np.sqrt numpy q)%Q in
   Ok (mu + bonus)%Q)%result.

Fixpoint scores_of (self : t) (Ainv : matrix) (theta : vec)
    (contexts : list (string * vec)) : result (list (string * Q)) :=
  match contexts with
  | [] => Ok []
  | (act, x) :: rest =>
      (s <- score self Ainv theta x ;;
       r <- scores_of self Ainv theta rest ;;
       Ok ((act, s) :: r))%result
  end.

Definition choose (self : t) (contexts : list (string * vec))
    : result (string * list (string * Q)) :=
  (Ainv <- _Ainv self ;;
   theta <- shaped (np.matvec Ainv (b self)) ;;
   scores <- scores_of self Ainv theta contexts ;;
   best <- max_key scores ;;
   Ok (best, scores))%result.
End Choose.

(** [update]: [A] is incremented before [b]; an operand of the wrong
    shape raises and leaves what was already written. *)
Definition update (self : t) (x : vec) (reward : Q) : t * result unit :=
  match np.iadd_square (A self) (np.outer x) with
  | None => (self, Err ValueError)
  | Some A' =>
      let self1 := mk (d self) (alpha self) A' (b self) in
      match np.iadd_col (b self1) (np.scale reward x) with
      | None => (self1, Err ValueError)
      | Some b' => (mk (d self1) (alpha self1) (A self1) b', Ok tt)
      end
  end.

End LinUCB.

(** ** Claims, rolls, actions and random draws *)

Abbreviation Claim := (Z * Z)%type.
Abbreviation Roll := (Z * Z)%type.

(** The dictionaries [decide_action] returns:
    [{"type": "raise", "claim": c}] and [{"type": "call_bluff"}]. *)
Inductive Action : Type :=
  | raise_claim (claim : Claim)
  | call_bluff.

(** The values the [random] module hands out during one call, one field
    per call site of the source. *)
Record Draws : Type := {
  u_truth : Q;       (* [random.random()] of the truthful fast path, line 105 *)
  beta_sample : Q;   (* [random.betavariate] inside [thompson], line 139 *)
  u_raise : Q;       (* [random.random()] of the raise branch, line 148 *)
  u_pressure : Q;    (* [random.random()] in [_pick_pressure_claim], line 190 *)
  pick : nat         (* the index [random.choice] selects, line 203 *)
}.

(** [random.choice(l)] when the generator selects index [i]. *)
Definition random_choice (l : list nat) (i : nat) : nat :=
  nth (i mod length l) l O.

(** ** The persisted state, a nested dictionary *)

Module Saved.

Record profile : Type := mk_profile {
  bluff_rate : gmap string (Q * Q);
  call_rate : Q * Q;
  small_raise_pref : Q * Q
}.

Record bandit_state : Type := mk_bandit { A : matrix; b : vec }.

(** Both keys are optional for [load_state]. *)
Record t : Type := mk {
  profiles : option (gmap string profile);
  bandit : option bandit_state
}.

End Saved.

(** ** LearningAIDiceOpponent *)

Module LearningAIDiceOpponent.

Record t : Type := mk {
  player_id : string;
  compare_claims : option (Claim -> Claim -> Z);
  next_higher_claim : option (Claim -> Claim);
  categorize_claim : option (Claim -> string);
  claim_matches_roll : option (Claim -> Roll -> bool);
  _profiles : gmap string OpponentProfile.t;   (* [defaultdict(OpponentProfile)] *)
  _d : nat;
  bandit : LinUCB.t;
  call_risk_bias : Q;
  raise_bluff_cap : Q;
  truth_bias : Q;
  _last_context : option (string * string * vec)
}.

Definition with_profiles (self : t) (p : gmap string OpponentProfile.t) : t :=
  mk (player_id self) (compare_claims self) (next_higher_claim self)
     (categorize_claim self) (claim_matches_roll self) p (_d self)
     (bandit self) (call_risk_bias self) (raise_bluff_cap self)
     (truth_bias self) (_last_context self).

Definition with_bandit (self : t) (bd : LinUCB.t) : t :=
  mk (player_id self) (compare_claims self) (next_higher_claim self)
     (categorize_claim self) (claim_matches_roll self) (_profiles self)
     (_d self) bd (call_risk_bias self) (raise_bluff_cap self)
     (truth_bias self) (_last_context self).

Definition with_last_context (self : t) (c : option (string * string * vec)) : t :=
  mk (player_id self) (compare_claims self) (next_higher_claim self)
     (categorize_claim self) (claim_matches_roll self) (_profiles self)
     (_d self) (bandit self) (call_risk_bias self) (raise_bluff_cap self)
     (truth_bias self) c.

(** [__init__] *)
Definition init (player_id : string) : t :=
  mk player_id None None None None ∅ 9 (LinUCB.init 9 0.9) 0.05 0.60 0.15 None.

Definition set_rules (self : t)
    (compare_claims : Claim -> Claim -> Z)
    (next_higher_claim : Claim -> Claim)
    (categorize_claim : Claim -> string)
    (claim_matches_roll : Claim -> Roll -> bool) : t :=
  mk (player_id self) (Some compare_claims) (Some next_higher_claim)
     (Some categorize_claim) (Some claim_matches_roll) (_profiles self)
     (_d self) (bandit self) (call_risk_bias self) (raise_bluff_cap self)
     (truth_bias self) (_last_context self).

(** *** Methods as state transformers *)

Definition M (X : Type) : Type := t -> t * result X.

Definition ret {X} (x : X) : M X := fun self => (self, Ok x).

Definition bind {X Y} (m : M X) (k : X -> M Y) : M Y :=
  fun self =>
    match m self with
    | (self', Ok x) => k x self'
    | (self', Err e) => (self', Err e)
    end.

(** A computation that only reads [self]. *)
Definition reads {X} (f : t -> result X) : M X := fun self => (self, f self).

Definition get : M t := fun self => (self, Ok self).

Definition set_last_context (c : option (string * string * vec)) : M unit :=
  fun self => (with_last_context self c, Ok tt).

Declare Scope engine_scope.
Delimit Scope engine_scope with engine.
Notation "x <- m ;; k" := (bind m (fun x => k))
  (at level 100, m at next level, right associativity) : engine_scope.

(** [self._profiles[opponent_id]]: a missing key is created with the
    default factory. *)
Definition profiles_getitem (opponent_id : string) : M OpponentProfile.t :=
  fun self =>
    match _profiles self !! opponent_id with
    | Some p => (self, Ok p)
    | None =>
        (with_profiles self (<[opponent_id := OpponentProfile.default]> (_profiles self)),
         Ok OpponentProfile.default)
    end.

(** [self._profiles[opponent_id]] is a reference: storing the changed
    profile back is what a mutation through it amounts to. *)
Definition profiles_store (opponent_id : string) (p : OpponentProfile.t) : M unit :=
  fun self => (with_profiles self (<[opponent_id := p]> (_profiles self)), Ok tt).

(** [assert all([...])] on the four rule functions. *)
Definition assert_rules : M unit :=
  fun self =>
    match compare_claims self, next_higher_claim self,
          categorize_claim self, claim_matches_roll self with
    | Some _, Some _, Some _, Some _ => (self, Ok tt)
    | _, _, _, _ => (self, Err AssertionError)
    end.

(** *** Utilities *)

Definition _canonical_claim_from_roll (roll : Roll) : Claim :=
  (Z.max (fst roll) (snd roll), Z.min (fst roll) (snd roll)).

Definition _best_truthful_above (self : t) (current_claim : Claim) (my_roll : Roll)
    : result (option Claim) :=
  (let truth_claim := _canonical_claim_from_roll my_roll in
   cmp <- call (compare_claims self) ;;
   Ok (if (0 <? cmp truth_claim current_claim)%Z then Some truth_claim else None))%result.

(** [for _ in range(n): claim = self.next_higher_claim(claim)] *)
Fixpoint climb (self : t) (n : nat) (claim : Claim) : result Claim :=
  match n with
  | O => Ok claim
  | S n' => (nxt <- call (next_higher_claim self) ;; climb self n' (nxt claim))%result
  end.

(** [r] is the value of the single [random.random()] of the method. *)
Definition _pick_pressure_claim (self : t) (current_claim : Claim)
    (allow_bluff : bool) (opp : OpponentProfile.t) (r : Q) : result Claim :=
  (let step := 1%nat in
   p_call <- BetaTracker.mean (OpponentProfile.call_rate opp) ;;
   let step :=
     if allow_bluff then
       let extra := 0%nat in
       let extra := if Qltb 0.55 p_call && Qltb r 0.50 then 1%nat else extra in
       let extra := if Qltb 0.65 p_call && Qltb r 0.25 then 2%nat else extra in
       (step + extra)%nat
     else step in
   climb self step current_claim)%result.

Definition _pressure_jump_above (self : t) (baseline : Claim) (pick : nat)
    : result Claim :=
  climb self (random_choice [1; 1; 2]%nat pick) baseline.

Definition _is_weak_truth (self : t) (claim : Claim) : result bool :=
  (cat <- call (categorize_claim self) ;;
   Ok (String.eqb (cat claim) "normal"))%result.

Definition _cat_onehot (cat : string) : vec :=
  [ if String.eqb cat "mexican" then 1%Q else 0%Q;
    if String.eqb cat "double" then 1%Q else 0%Q;
    if String.eqb cat "normal" then 1%Q else 0%Q ].

(** [while self.compare_claims(cur, target) < 0 and steps < limit]:
    [fuel] is [limit - steps]. *)
Fixpoint count_steps (self : t) (target : Claim) (fuel : nat) (steps : nat)
    (cur : Claim) : result nat :=
  (cmp <- call (compare_claims self) ;;
   if (cmp cur target <? 0)%Z then
     match fuel with
     | O => Ok steps
     | S fuel' =>
         nxt <- call (next_higher_claim self) ;;
         count_steps self target fuel' (S steps) (nxt cur)
     end
   else Ok steps)%result.

Definition _distance_from_next (self : t) (current_claim : Claim) (my_roll : Roll)
    : result Q :=
  (let truth := _canonical_claim_from_roll my_roll in
   cmp <- call (compare_claims self) ;;
   if (cmp truth current_claim <=? 0)%Z then Ok 0%Q
   else
     steps <- count_steps self truth 20 0 current_claim ;;
     Ok (inject_Z (Z.of_nat steps)))%result.

Definition _step_distance (self : t) (a b : Claim) : result nat :=
  (cmp <- call (compare_claims self) ;;
   if (cmp a b >=? 0)%Z then Ok O
   else count_steps self b 30 0 a)%result.

(** *** decide_action *)

Section Decide.
Variable numpy : np.Numpy.

(** The attribute [self._make_context], looked up at lines 115 and
    125. Neither the class nor [__init__] defines it: in the source as
    it is the attribute is missing ([None]) and the lookup raises
    [AttributeError]. [Some f] is an engine to which a caller has
    attached the method; its arguments are taken in the order of the
    two calls. *)
Variable _make_context :
  option (Claim -> Z -> vec -> Q -> Q -> bool -> Q -> Q -> vec).

Definition decide_action (opponent_id : string) (current_claim : option Claim)
    (my_roll : Roll) (round_index : Z) (rnd : Draws) : M Action :=
  (_ <- assert_rules ;;
   match current_claim with
   | None =>
       let opening := _canonical_claim_from_roll my_roll in
       weak <- reads (fun self => _is_weak_truth self opening) ;;
       opening <-
         (if weak : bool
          then reads (fun self => _pressure_jump_above self (3, 2)%Z (pick rnd))
          else ret opening) ;;
       _ <- set_last_context None ;;
       ret (raise_claim opening)
   | Some current_claim =>
       truthful <- reads (fun self => _best_truthful_above self current_claim my_roll) ;;
       let bandit_path : M Action :=
         opp <- profiles_getitem opponent_id ;;
         cat <- reads (fun self =>
                  (f <- call (categorize_claim self) ;; Ok (f current_claim))%result) ;;
         cat_bluff_mean <-
           reads (fun _ => BetaTracker.mean (OpponentProfile.bluff_get opp cat)) ;;
         p_call_mean <-
           reads (fun _ => BetaTracker.mean (OpponentProfile.call_rate opp)) ;;
         dist <- reads (fun self => _distance_from_next self current_claim my_roll) ;;
         let has_truth := match truthful with Some _ => true | None => false end in
         make_call <- reads (fun _ => getattr _make_context) ;;
         let ctx_call :=
           make_call current_claim round_index (_cat_onehot cat)
             cat_bluff_mean p_call_mean has_truth dist 0%Q in
         make_raise <- reads (fun _ => getattr _make_context) ;;
         let ctx_raise :=
           make_raise current_claim round_index (_cat_onehot cat)
             cat_bluff_mean p_call_mean has_truth dist 1%Q in
         chosen <- reads (fun self =>
                     LinUCB.choose numpy (bandit self)
                       [("CALL", ctx_call); ("RAISE", ctx_raise)]) ;;
         let choice := fst chosen in
         challenge <-
           (if String.eqb choice "CALL" then
              p_bluff_sample <-
                reads (fun _ =>
                  BetaTracker.thompson (OpponentProfile.bluff_get opp cat)
                    (beta_sample rnd)) ;;
              self <- get ;;
              let ev_call := ((2 * p_bluff_sample - 1) - call_risk_bias self)%Q in
              ret (Qleb (-0.15) ev_call)
            else ret false) ;;
         if challenge : bool then
           _ <- set_last_context (Some (opponent_id, "CALL", ctx_call)) ;;
           ret call_bluff
         else
           claim <-
             match truthful with
             | Some truth =>
                 self <- get ;;
                 if Qltb (u_raise rnd) (0.7 + truth_bias self)
                 then ret truth
                 else reads (fun self =>
                        _pick_pressure_claim self current_claim true opp (u_pressure rnd))
             | None =>
                 reads (fun self =>
                   _pick_pressure_claim self current_claim true opp (u_pressure rnd))
             end ;;
           _ <- set_last_context (Some (opponent_id, "RAISE", ctx_raise)) ;;
           ret (raise_claim claim)
       in
       match truthful with
       | Some truth =>
           self <- get ;;
           if Qltb (u_truth rnd) (0.65 + truth_bias self) then
             _ <- set_last_context None ;;
             ret (raise_claim truth)
           else bandit_path
       | None => bandit_path
       end
   end)%engine.

End Decide.

(** *** Observations *)

Definition observe_showdown (opponent_id : string) (opponent_claim : Claim)
    (actual_opponent_roll : Roll) (caller_is_cpu : bool) : M unit :=
  (was_bluff <- reads (fun self =>
                  (f <- call (claim_matches_roll self) ;;
                   Ok (negb (f opponent_claim actual_opponent_roll)))%result) ;;
   cat <- reads (fun self =>
            (f <- call (categorize_claim self) ;; Ok (f opponent_claim))%result) ;;
   opp <- profiles_getitem opponent_id ;;
   let (bluff_rate, tracker) :=
     OpponentProfile.setdefault cat (BetaTracker.mk 1 1) (OpponentProfile.bluff_rate opp) in
   profiles_store opponent_id
     (OpponentProfile.mk
        (<[cat := BetaTracker.update was_bluff tracker]> bluff_rate)
        (OpponentProfile.call_rate opp)
        (OpponentProfile.small_raise_pref opp)))%engine.

Definition observe_our_raise_resolved (opponent_id : string) (cpu_claim : Claim)
    (cpu_roll : Roll) (opponent_called : bool) : M unit :=
  (opp <- profiles_getitem opponent_id ;;
   profiles_store opponent_id
     (OpponentProfile.mk
        (OpponentProfile.bluff_rate opp)
        (BetaTracker.update opponent_called (OpponentProfile.call_rate opp))
        (OpponentProfile.small_raise_pref opp)))%engine.

Definition observe_opponent_raise_size (opponent_id : string)
    (current_claim new_claim : Claim) : M unit :=
  (steps <- reads (fun self => _step_distance self current_claim new_claim) ;;
   let small := (steps =? 1)%nat in
   opp <- profiles_getitem opponent_id ;;
   profiles_store opponent_id
     (OpponentProfile.mk
        (OpponentProfile.bluff_rate opp)
        (OpponentProfile.call_rate opp)
        (BetaTracker.update small (OpponentProfile.small_raise_pref opp))))%engine.

Definition observe_round_outcome (did_cpu_win_round : bool) : M unit :=
  fun self =>
    match _last_context self with
    | None => (self, Ok tt)
    | Some (_, _, ctx) =>
        let reward := if did_cpu_win_round then 1%Q else (-1)%Q in
        match LinUCB.update (bandit self) ctx reward with
        | (bd, Ok _) => (with_last_context (with_bandit self bd) None, Ok tt)
        | (bd, Err e) => (with_bandit self bd, Err e)
        end
    end.

(** *** state and load_state *)

Definition tracker_pair (tr : BetaTracker.t) : Q * Q :=
  (BetaTracker.alpha tr, BetaTracker.beta tr).

Definition profile_state (p : OpponentProfile.t) : Saved.profile :=
  Saved.mk_profile
    (tracker_pair <$> OpponentProfile.bluff_rate p)
    (tracker_pair (OpponentProfile.call_rate p))
    (tracker_pair (OpponentProfile.small_raise_pref p)).

Definition state (self : t) : Saved.t :=
  Saved.mk
    (Some (profile_state <$> _profiles self))
    (Some (Saved.mk_bandit (LinUCB.A (bandit self)) (LinUCB.b (bandit self)))).

(** The body of the inner loop of [load_state] for one item
    [k, (a, b)] of [data["bluff_rate"]]. *)
Definition load_bluff (k : string) (ab : Q * Q)
    (bluff_rate : gmap string BetaTracker.t) : gmap string BetaTracker.t :=
  let d1 := fst (OpponentProfile.setdefault k (BetaTracker.mk 1 1) bluff_rate) in
  let d2 := alter (fun tr => BetaTracker.mk (fst ab) (BetaTracker.beta tr)) k d1 in
  alter (fun tr => BetaTracker.mk (BetaTracker.alpha tr) (snd ab)) k d2.

(** The body of the outer loop: the profile built for one opponent. *)
Definition load_profile (data : Saved.profile) : OpponentProfile.t :=
  let prof := OpponentProfile.default in
  let bluff_rate :=
    map_fold load_bluff (OpponentProfile.bluff_rate prof) (Saved.bluff_rate data) in
  let call_rate :=
    BetaTracker.mk (fst (Saved.call_rate data)) (snd (Saved.call_rate data)) in
  let small_raise_pref :=
    BetaTracker.mk (fst (Saved.small_raise_pref data))
                   (snd (Saved.small_raise_pref data)) in
  OpponentProfile.mk bluff_rate call_rate small_raise_pref.

Definition load_state (st : Saved.t) : M unit :=
  fun self =>
    let loaded_bandit : result LinUCB.t :=
      match Saved.bandit st with
      | Some bs =>
          (A <- np.array2 (Saved.A bs) ;;
           Ok (LinUCB.mk (LinUCB.d (bandit self)) (LinUCB.alpha (bandit self))
                 A (Saved.b bs)))%result
      | None => Ok (bandit self)
      end in
    match loaded_bandit with
    | Err e => (self, Err e)
    | Ok bd =>
        let self1 := with_bandit self bd in
        let items := default ∅ (Saved.profiles st) in
        (with_profiles self1
           (map_fold (fun opp_id data profs => <[opp_id := load_profile data]> profs)
              (_profiles self1) items),
         Ok tt)
    end.

End LearningAIDiceOpponent.

(** ** Concrete collaborators, for running the engine on examples

    The rule functions, numpy and [_make_context] come from outside the
    source file; the instances below are used where a property is
    evaluated on a concrete input. *)

Module Fixture.

(** Modelled from the spec: [_make_context], which [decide_action]
    calls and the source does not define. Section 4.4 step 3 gives the
    nine components: "a 3-slot one-hot of the claim's category, the
    bluff-rate mean, the call-rate mean, a boolean [...] flag, the
    distance metric, the round index, and the action-flag bit". *)
Definition make_context (claim : Claim) (round_index : Z) (onehot : vec)
    (cat_bluff_mean p_call_mean : Q) (has_truth : bool) (dist flag : Q) : vec :=
  onehot ++ [cat_bluff_mean; p_call_mean; if has_truth then 1%Q else 0%Q;
             dist; inject_Z round_index; flag].

(** An inverse for diagonal matrices with non-zero diagonal (exact on
    the identity [A] of a fresh bandit); every other matrix is reported
    singular. *)
Definition diag_entry_ok (i j : nat) (a : Q) : bool :=
  if (i =? j)%nat then negb (Qeq_bool a 0) else Qeq_bool a 0.

Definition is_diagonal (M : matrix) : bool :=
  forallb (fun ir => (length (snd ir) =? length M)%nat &&
                     forallb (fun ja => diag_entry_ok (fst ir) (fst ja) (snd ja))
                             (imap pair (snd ir)))
          (imap pair M).

Definition diag_inv (M : matrix) : option matrix :=
  if is_diagonal M
  then Some (imap (fun i r => imap (fun j a => if (i =? j)%nat then (/ a)%Q else a) r) M)
  else None.

(** A rational square root, exact to four decimals. *)
Definition sqrt4 (q : Q) : Q :=
  Qmake (Z.sqrt (Qnum q * Zpos (Qden q) * 100000000)) (Qden q * 10000).

Definition numpy : np.Numpy := {| np.linalg_inv := diag_inv; np.sqrt := sqrt4 |}.

(** A two-dice rule set: mixed pairs rank by their two-digit value,
    above them the doubles, on top the pair (2,1). Following the remark
    at line 32 of the source, (3,1) and (4,1) form a category of their
    own. *)
Definition rank (c : Claim) : Z :=
  let (hi, lo) := c in
  if ((hi =? 2) && (lo =? 1))%Z then 1000
  else if (hi =? lo)%Z then 100 + hi
  else 10 * hi + lo.

Definition compare_claims (a b : Claim) : Z := rank a - rank b.

Definition ladder : list Claim :=
  [(3,1); (3,2); (4,1); (4,2); (4,3); (5,1); (5,2); (5,3); (5,4);
   (6,1); (6,2); (6,3); (6,4); (6,5);
   (1,1); (2,2); (3,3); (4,4); (5,5); (6,6); (2,1)]%Z.

(** The first claim of the ladder that ranks above [c]; the top claim
    has no successor and is returned unchanged. *)
Definition next_higher_claim (c : Claim) : Claim :=
  match filter (fun x => (rank c <? rank x)%Z) ladder with
  | x :: _ => x
  | [] => c
  end.

Definition categorize_claim (c : Claim) : string :=
  let (hi, lo) := c in
  if ((hi =? 2) && (lo =? 1))%Z then "mexican"
  else if (hi =? lo)%Z then "double"
  else if ((lo =? 1) && ((hi =? 3) || (hi =? 4)))%Z then "special"
  else "normal".

Definition claim_matches_roll (c : Claim) (roll : Roll) : bool :=
  let t := LearningAIDiceOpponent._canonical_claim_from_roll roll in
  ((fst c =? fst t) && (snd c =? snd t))%Z.

(** A fresh engine after [set_rules]. *)
Definition engine : LearningAIDiceOpponent.t :=
  LearningAIDiceOpponent.set_rules (LearningAIDiceOpponent.init "CPU")
    compare_claims next_higher_claim categorize_claim claim_matches_roll.

Definition draws (u1 s u2 u3 : Q) (i : nat) : Draws :=
  {| u_truth := u1; beta_sample := s; u_raise := u2; u_pressure := u3; pick := i |}.

End Fixture.

(** * The arithmetic in binary64

    The embedding above computes with exact rationals. Python's [float]
    and numpy's [float64] are IEEE 754 binary64 with rounding to nearest,
    ties to even, and so are Rocq's primitive floats. The methods whose
    properties are a matter of rounding are read here once more, over
    those floats: same control flow, same operations in the same order. *)

(** ** BetaTracker over binary64 *)

Module BetaTracker64.
Import PrimFloat.

Record t : Type := mk { alpha : float; beta : float }.

(** [alpha / (alpha + beta)]; float division by zero raises. *)
Definition mean (self : t) : result float :=
  if (alpha self + beta self =? 0)%float then Err ZeroDivisionError
  else Ok (alpha self / (alpha self + beta self))%float.

Definition update (success : bool) (self : t) : t :=
  if success then mk (alpha self + 1)%float (beta self)
  else mk (alpha self) (beta self + 1)%float.

(** A sequence of [update] calls, first call first. *)
Definition updates (l : list bool) (self : t) : t :=
  fold_left (fun s b => update b s) l self.

End BetaTracker64.

(** ** LinUCB.update over binary64 *)

Module np64.
Import PrimFloat.

Definition zeros (n : nat) : list float := repeat 0%float n.

(** [np.eye(n)] *)
Fixpoint eye (n : nat) : list (list float) :=
  match n with
  | O => []
  | S n' => (1%float :: zeros n') :: map (cons 0%float) (eye n')
  end.

Definition vadd (u v : list float) : list float := zip_with add u v.
Definition scale (c : float) (v : list float) : list float := map (mul c) v.
Definition madd (M N : list (list float)) : list (list float) := zip_with vadd M N.

(** All rows have [n] entries. *)
Definition rows_have (n : nat) (M : list (list float)) : bool :=
  forallb (fun r => length r =? n)%nat M.

(** [x @ x.T] for a column [x] *)
Definition outer (x : list float) : list (list float) :=
  map (fun a => scale a x) x.

(** [M += N] where [N] is [n] by [n]: a 1 by 1 operand is broadcast,
    any other must have the shape of [M]. *)
Definition iadd_square (M N : list (list float)) : option (list (list float)) :=
  match N with
  | [[c]] => Some (map (map (fun a => a + c)%float) M)
  | _ =>
      if (length M =? length N)%nat && rows_have (length N) M
      then Some (madd M N) else None
  end.

(** [u += v] for two columns: a column of one entry is broadcast. *)
Definition iadd_col (u v : list float) : option (list float) :=
  match v with
  | [c] => Some (map (fun a => a + c)%float u)
  | _ => if (length u =? length v)%nat then Some (vadd u v) else None
  end.

End np64.

Module LinUCB64.
Import PrimFloat.

Record t : Type := mk {
  d : nat;
  alpha : float;
  A : list (list float);
  b : list float   (* the column [b], flattened *)
}.

(** [LinUCB(d, alpha)] *)
Definition init (d : nat) (alpha : float) : t :=
  mk d alpha (np64.eye d) (np64.zeros d).

(** [update]: [A] is incremented before [b]; an operand of the wrong
    shape raises and leaves what was already written. *)
Definition update (self : t) (x : list float) (reward : float) : t * result unit :=
  match np64.iadd_square (A self) (np64.outer x) with
  | None => (self, Err ValueError)
  | Some A' =>
      let self1 := mk (d self) (alpha self) A' (b self) in
      match np64.iadd_col (b self1) (np64.scale reward x) with
      | None => (self1, Err ValueError)
      | Some b' => (mk (d self1) (alpha self1) (A self1) b', Ok tt)
      end
  end.

End LinUCB64.

(** * Vocabulary of the statements *)

Section Vocabulary.
Local Open Scope Q_scope.

(** Number of [true] (resp. [false]) outcomes of a sequence. *)
Definition successes (l : list bool) : Q :=
  inject_Z (Z.of_nat (length (filter (fun o => o = true) l))).
Definition failures (l : list bool) : Q :=
  inject_Z (Z.of_nat (length (filter (fun o => o = false) l))).

End Vocabulary.

Section EngineVocabulary.
Import LearningAIDiceOpponent.

(** What a decision may change in the engine: the pending slot and,
    for an opponent met for the first time, the creation of that
    opponent's default profile. *)
Definition frame (opponent_id : string) (self self' : t) : Prop :=
  exists c,
    self' = with_last_context self c \/
    (_profiles self !! opponent_id = None /\
     self' = with_last_context
               (with_profiles self
                  (<[opponent_id := OpponentProfile.default]> (_profiles self))) c).

(** A method keeps the engine within [frame], whether it returns or
    raises. *)
Definition preserves {X} (opponent_id : string) (m : M X) : Prop :=
  forall self, frame opponent_id self (fst (m self)).

(** The profile [self._profiles[opponent_id]] evaluates to. *)
Definition profile_of (self : t) (opponent_id : string) : OpponentProfile.t :=
  default OpponentProfile.default (_profiles self !! opponent_id).

End EngineVocabulary.

Section StateVocabulary.

(** The tracker [load_state] builds from a saved pair. *)
Definition pair_tracker (ab : Q * Q) : BetaTracker.t :=
  BetaTracker.mk (fst ab) (snd ab).

(** The pairs [state()] writes for the trackers of a new profile. *)
Definition default_pairs : gmap string (Q * Q) :=
  LearningAIDiceOpponent.tracker_pair <$> OpponentProfile.default_bluff_rate.

(** A saved profile lists the three categories of a new profile. *)
Definition lists_defaults (data : Saved.profile) : Prop :=
  forall k, is_Some (OpponentProfile.default_bluff_rate !! k) ->
            is_Some (Saved.bluff_rate data !! k).

End StateVocabulary.

Section MatrixVocabulary.
Local Open Scope Q_scope.

(** The entry [M[i][j]], if there is one. *)
Definition entry (M : matrix) (i j : nat) : option Q :=
  M !! i ≫= fun r => r !! j.

Definition is_square (n : nat) (M : matrix) : Prop :=
  length M = n /\ Forall (fun r => length r = n) M.

(** [M] equals its transpose, entry by entry. *)
Definition symmetric (M : matrix) : Prop :=
  forall i j, entry M i j = entry M j i.

(** [M v], and the quadratic form [v.T M v]. *)
Definition mv (M : matrix) (v : vec) : vec := map (fun r => np.dotp r v) M.
Definition qform (M : matrix) (v : vec) : Q := np.dotp v (mv M v).

Definition is_zero (v : vec) : Prop := Forall (fun x => x == 0) v.

(** [v.T M v > 0] for every non-zero [v]. *)
Definition positive_definite (n : nat) (M : matrix) : Prop :=
  forall v, length v = n -> ~ is_zero v -> 0 < qform M v.

(** Only the zero vector is sent to zero: [M] is invertible. *)
Definition nonsingular (n : nat) (M : matrix) : Prop :=
  forall v, length v = n -> is_zero (mv M v) -> is_zero v.

(** What every design matrix of the bandit satisfies. *)
Definition design_invariant (n : nat) (M : matrix) : Prop :=
  is_square n M /\ symmetric M /\ positive_definite n M.

(** The bandit after a sequence of [update(x, reward)] calls, first
    call first; a call that raises leaves what it had written. *)
Definition run_updates (calls : list (vec * Q)) (bd : LinUCB.t) : LinUCB.t :=
  fold_left (fun s xr => fst (LinUCB.update s (fst xr) (snd xr))) calls bd.

End MatrixVocabulary.

Section FurtherVocabulary.
Import LearningAIDiceOpponent.

(** The four rule functions have been injected. *)
Definition rules_set (self : t) : Prop :=
  is_Some (compare_claims self) /\ is_Some (next_higher_claim self) /\
  is_Some (categorize_claim self) /\ is_Some (claim_matches_roll self).

End FurtherVocabulary.

Section PositivityVocabulary.
Local Open Scope Q_scope.

(** Both counters of a tracker are positive. *)
Definition tracker_positive (tr : BetaTracker.t) : Prop :=
  0 < BetaTracker.alpha tr /\ 0 < BetaTracker.beta tr.

Definition profile_positive (p : OpponentProfile.t) : Prop :=
  map_Forall (fun _ tr => tracker_positive tr) (OpponentProfile.bluff_rate p) /\
  tracker_positive (OpponentProfile.call_rate p) /\
  tracker_positive (OpponentProfile.small_raise_pref p).

(** Every tracker of every profile of the engine has positive counters. *)
Definition engine_positive (self : LearningAIDiceOpponent.t) : Prop :=
  map_Forall (fun _ p => profile_positive p) (LearningAIDiceOpponent._profiles self).

End PositivityVocabulary.

Section DefaultsVocabulary.

(** A profile has a tracker for each category of a new profile. *)
Definition has_defaults (p : OpponentProfile.t) : Prop :=
  forall k, is_Some (OpponentProfile.default_bluff_rate !! k) ->
            is_Some (OpponentProfile.bluff_rate p !! k).

Definition engine_has_defaults (self : LearningAIDiceOpponent.t) : Prop :=
  map_Forall (fun _ p => has_defaults p) (LearningAIDiceOpponent._profiles self).

End DefaultsVocabulary.

Section Binary64Vocabulary.











End Binary64Vocabulary.

Section Binary64Checks.
Import PrimFloat.








End Binary64Checks.

(** * Properties *)

(** ** BetaTracker *)

Section BetaTrackerFacts.
Import BetaTracker.
Local Open Scope Q_scope.

Lemma Qeq_bool_false_pos (x : Q) : 0 < x -> Qeq_bool x 0 = false.
Proof.
  intros Hx. destruct (Qeq_bool x 0) eqn:E; [|reflexivity].
  apply Qeq_bool_eq in E. rewrite E in Hx. exfalso. revert Hx. apply Qlt_irrefl.
Qed.

Lemma mean_positive (tr : t) :
  0 < alpha tr -> 0 < beta tr ->
  mean tr = Ok (alpha tr / (alpha tr + beta tr)).
Proof.
  intros Ha Hb. unfold mean.
  rewrite Qeq_bool_false_pos; [reflexivity | lra].
Qed.

Lemma updates_cons (o : bool) (l : list bool) (tr : t) :
  updates (o :: l) tr = updates l (update o tr).
Proof. reflexivity. Qed.

Lemma updates_app (l1 l2 : list bool) (tr : t) :
  updates (l1 ++ l2) tr = updates l2 (updates l1 tr).
Proof. unfold updates. apply fold_left_app. Qed.

Lemma inject_succ (n : nat) :
  inject_Z (Z.of_nat (S n)) == inject_Z (Z.of_nat n) + 1.
Proof. rewrite Nat2Z.inj_succ. unfold Z.succ. rewrite inject_Z_plus. reflexivity. Qed.

(** The counters after a sequence of updates: the initial ones plus the
    numbers of outcomes of each kind. *)
Lemma updates_counters (l : list bool) (tr : t) :
  alpha (updates l tr) == alpha tr + successes l /\
  beta (updates l tr) == beta tr + failures l.
Proof.
  revert tr. induction l as [|o l IH]; intros tr.
  - unfold successes, failures. simpl. split; ring.
  - rewrite updates_cons. destruct (IH (update o tr)) as [Ha Hb].
    rewrite Ha, Hb. unfold successes, failures.
    destruct o; simpl.
    + rewrite !filter_cons. repeat case_decide; try congruence.
      cbn [length]. rewrite inject_succ. split; ring.
    + rewrite !filter_cons. repeat case_decide; try congruence.
      cbn [length]. rewrite inject_succ. split; ring.
Qed.

Lemma successes_nonneg (l : list bool) : 0 <= successes l.
Proof.
  unfold successes. change 0 with (inject_Z 0). rewrite <- Zle_Qle. lia.
Qed.

Lemma failures_nonneg (l : list bool) : 0 <= failures l.
Proof.
  unfold failures. change 0 with (inject_Z 0). rewrite <- Zle_Qle. lia.
Qed.

Lemma updates_positive (l : list bool) (tr : t) :
  0 < alpha tr -> 0 < beta tr ->
  0 < alpha (updates l tr) /\ 0 < beta (updates l tr).
Proof.
  intros Ha Hb. destruct (updates_counters l tr) as [Ea Eb].
  rewrite Ea, Eb.
  pose proof (successes_nonneg l). pose proof (failures_nonneg l).
  split; lra.
Qed.

(** The quotient [a / (a + b)] grows with [a] and shrinks with [b]. *)
Lemma ratio_monotone (a b a' b' : Q) :
  0 < a -> 0 < b' -> a <= a' -> b' <= b ->
  a / (a + b) <= a' / (a' + b').
Proof.
  intros Ha Hb Haa Hbb.
  apply Qle_shift_div_l; [lra|].
  unfold Qdiv. rewrite <- Qmult_assoc, (Qmult_comm (/ _)), Qmult_assoc.
  apply Qle_shift_div_r; [lra|].
  nra.
Qed.

End BetaTrackerFacts.

(** Over exact rationals, that is, without rounding: after any sequence
    of [update] calls on a tracker whose initial counters are positive,
    [mean()] is exactly [alpha / (alpha + beta)] of
    the current counters (which are the initial ones plus the numbers of
    successes and failures); turning one [update(False)] of the sequence
    into [update(True)] does not decrease the mean; and one more
    [update(True)] does not decrease it while one more [update(False)]
    does not increase it. *)
Theorem BetaTracker_mean_exact_and_monotone (tr : BetaTracker.t) (l : list bool) :
  (0 < BetaTracker.alpha tr)%Q -> (0 < BetaTracker.beta tr)%Q ->
  let cur := BetaTracker.updates l tr in
  (exists m mt mf,
      BetaTracker.mean cur = Ok m /\
      m = (BetaTracker.alpha cur / (BetaTracker.alpha cur + BetaTracker.beta cur))%Q /\
      (BetaTracker.alpha cur == BetaTracker.alpha tr + successes l)%Q /\
      (BetaTracker.beta cur == BetaTracker.beta tr + failures l)%Q /\
      BetaTracker.mean (BetaTracker.update true cur) = Ok mt /\
      BetaTracker.mean (BetaTracker.update false cur) = Ok mf /\
      (mf <= m)%Q /\ (m <= mt)%Q) /\
  (forall l1 l2, l = l1 ++ false :: l2 ->
     exists m m',
       BetaTracker.mean cur = Ok m /\
       BetaTracker.mean (BetaTracker.updates (l1 ++ true :: l2) tr) = Ok m' /\
       (m <= m')%Q).
Proof.
  intros Ha Hb cur.
  destruct (updates_positive l tr Ha Hb) as [Hca Hcb]. fold cur in Hca, Hcb.
  destruct (updates_counters l tr) as [Ea Eb]. fold cur in Ea, Eb.
  split.
  - eexists _, _, _.
    split; [apply mean_positive; assumption|].
    split; [reflexivity|].
    split; [exact Ea|]. split; [exact Eb|].
    split; [apply mean_positive; simpl; lra|].
    split; [apply mean_positive; simpl; lra|].
    simpl. split; apply ratio_monotone; lra.
  - intros l1 l2 ->.
    set (mid := BetaTracker.updates l1 tr).
    destruct (updates_positive l1 tr Ha Hb) as [Hma Hmb]. fold mid in Hma, Hmb.
    assert (Hf : cur = BetaTracker.updates l2 (BetaTracker.update false mid)).
    { unfold cur. rewrite updates_app. reflexivity. }
    assert (Ht : BetaTracker.updates (l1 ++ true :: l2) tr
                 = BetaTracker.updates l2 (BetaTracker.update true mid)).
    { rewrite updates_app. reflexivity. }
    rewrite Ht, Hf.
    destruct (updates_counters l2 (BetaTracker.update false mid)) as [Fa Fb].
    destruct (updates_counters l2 (BetaTracker.update true mid)) as [Ta Tb].
    simpl in Fa, Fb, Ta, Tb.
    pose proof (successes_nonneg l2). pose proof (failures_nonneg l2).
    eexists _, _.
    split; [apply mean_positive; rewrite ?Fa, ?Fb; lra|].
    split; [apply mean_positive; rewrite ?Ta, ?Tb; lra|].
    apply ratio_monotone; rewrite ?Fa, ?Fb, ?Ta, ?Tb; lra.
Qed.

(** The statement at a concrete tracker: prior (1, 2) and the outcomes
    false, true. *)
Lemma BetaTracker_mean_exact_and_monotone_witness :
  (0 < BetaTracker.alpha (BetaTracker.mk 1 2))%Q /\
  (0 < BetaTracker.beta (BetaTracker.mk 1 2))%Q /\
  exists m m',
    BetaTracker.mean (BetaTracker.updates [false; true] (BetaTracker.mk 1 2)) = Ok m /\
    BetaTracker.mean (BetaTracker.updates ([] ++ true :: [true]) (BetaTracker.mk 1 2)) = Ok m' /\
    (m <= m')%Q.
Proof.
  split; [reflexivity|]. split; [reflexivity|].
  apply (proj2 (BetaTracker_mean_exact_and_monotone
                  (BetaTracker.mk 1 2) [false; true] eq_refl eq_refl) [] [true]).
  reflexivity.
Defined.

(** ** Comparisons and iteration *)

Lemma Qltb_lt (x y : Q) : Qltb x y = true <-> (x < y)%Q.
Proof.
  unfold Qltb. destruct (Qlt_le_dec x y) as [H|H]; split; intros H'; try done.
  exfalso. apply (Qlt_irrefl x). eapply Qlt_le_trans; eassumption.
Qed.

Lemma Qltb_ge (x y : Q) : Qltb x y = false <-> (y <= x)%Q.
Proof.
  unfold Qltb. destruct (Qlt_le_dec x y) as [H|H]; split; intros H'; try done.
  exfalso. apply (Qlt_irrefl x). eapply Qlt_le_trans; eassumption.
Qed.

Lemma Qleb_le (x y : Q) : Qleb x y = true <-> (x <= y)%Q.
Proof.
  unfold Qleb. destruct (Qlt_le_dec y x) as [H|H]; split; intros H'; try done.
  exfalso. apply (Qlt_irrefl y). eapply Qlt_le_trans; eassumption.
Qed.

Lemma climb_iter (self : LearningAIDiceOpponent.t) (nxt : Claim -> Claim)
    (n : nat) (c : Claim) :
  LearningAIDiceOpponent.next_higher_claim self = Some nxt ->
  LearningAIDiceOpponent.climb self n c = Ok (Nat.iter n nxt c).
Proof.
  intros Hn. revert c. induction n as [|n IH]; intros c; [reflexivity|].
  cbn [LearningAIDiceOpponent.climb]. rewrite Hn. cbn [call rbind].
  rewrite IH. f_equal. symmetry. apply Nat.iter_succ_r.
Qed.

(** ** _pick_pressure_claim *)

(** C7. The pressure claim is the current claim raised [steps] times by
    [next_higher_claim], with [1 <= steps <= 3]; one draw [r] decides
    the extra steps: a second step is taken iff the call-rate mean
    exceeds 0.55 and [r < 0.50], a third iff the mean exceeds 0.65 and
    [r < 0.25]. Hence, when the mean exceeds 0.65, the step count is 3
    for [r < 0.25], 2 for [0.25 <= r < 0.50] and 1 for [0.50 <= r]. *)
Theorem pick_pressure_claim_steps (self : LearningAIDiceOpponent.t)
    (nxt : Claim -> Claim) (current_claim : Claim) (opp : OpponentProfile.t)
    (r p_call : Q) :
  LearningAIDiceOpponent.next_higher_claim self = Some nxt ->
  BetaTracker.mean (OpponentProfile.call_rate opp) = Ok p_call ->
  exists steps : nat,
    LearningAIDiceOpponent._pick_pressure_claim self current_claim true opp r
      = Ok (Nat.iter steps nxt current_claim) /\
    (1 <= steps <= 3)%nat /\
    ((2 <= steps)%nat <-> (0.55 < p_call /\ r < 0.50)%Q) /\
    (steps = 3%nat <-> (0.65 < p_call /\ r < 0.25)%Q) /\
    ((0.65 < p_call)%Q ->
       (steps = 3%nat <-> (r < 0.25)%Q) /\
       (steps = 2%nat <-> (0.25 <= r /\ r < 0.50)%Q) /\
       (steps = 1%nat <-> (0.50 <= r)%Q)).
Proof.
  intros Hn Hm. unfold LearningAIDiceOpponent._pick_pressure_claim.
  rewrite Hm. cbn [rbind].
  destruct (Qltb 0.55 p_call) eqn:E1; destruct (Qltb r 0.50) eqn:E2;
    destruct (Qltb 0.65 p_call) eqn:E3; destruct (Qltb r 0.25) eqn:E4;
    cbn [andb Nat.add];
    repeat match goal with
           | H : Qltb _ _ = true |- _ => apply Qltb_lt in H
           | H : Qltb _ _ = false |- _ => apply Qltb_ge in H
           end;
    (eexists; split; [apply climb_iter; exact Hn|]);
    repeat split; intros; try lia; try lra;
    try (exfalso; lra);
    repeat match goal with H : _ /\ _ |- _ => destruct H end;
    try lra; try lia.
Qed.

Lemma pick_pressure_claim_steps_witness :
  exists steps : nat,
    LearningAIDiceOpponent._pick_pressure_claim Fixture.engine (3, 2)%Z true
      (OpponentProfile.mk ∅ (BetaTracker.mk 3 1) (BetaTracker.mk 1 1)) 0.3
      = Ok (Nat.iter steps Fixture.next_higher_claim (3, 2)%Z) /\
    steps = 2%nat.
Proof.
  destruct (pick_pressure_claim_steps Fixture.engine Fixture.next_higher_claim
              (3, 2)%Z (OpponentProfile.mk ∅ (BetaTracker.mk 3 1) (BetaTracker.mk 1 1))
              0.3 (3 / (3 + 1)) eq_refl eq_refl)
    as (steps & Hrun & _ & _ & _ & Hdist).
  exists steps. split; [exact Hrun|].
  apply (proj1 (proj2 (Hdist eq_refl))). split; [discriminate | reflexivity].
Defined.

(** ** LinUCB.update and observe_round_outcome *)

Lemma length_scale (c : Q) (v : vec) : length (np.scale c v) = length v.
Proof. apply length_map. Qed.

Lemma length_outer (x : vec) : length (np.outer x) = length x.
Proof. apply length_map. Qed.

(** On operands of matching size [update] returns normally. *)
Lemma LinUCB_update_shaped (bd : LinUCB.t) (x : vec) (reward : Q) :
  length (LinUCB.A bd) = length x ->
  np.rows_have (length x) (LinUCB.A bd) = true ->
  length (LinUCB.b bd) = length x ->
  exists A' b',
    LinUCB.update bd x reward
      = (LinUCB.mk (LinUCB.d bd) (LinUCB.alpha bd) A' b', Ok tt) /\
    np.iadd_square (LinUCB.A bd) (np.outer x) = Some A' /\
    np.iadd_col (LinUCB.b bd) (np.scale reward x) = Some b'.
Proof.
  intros HA Hrows Hb. unfold LinUCB.update.
  assert (HsA : exists A', np.iadd_square (LinUCB.A bd) (np.outer x) = Some A').
  { destruct x as [|c1 [|c2 x']].
    - cbn. cbn in HA, Hrows. rewrite HA, Hrows. eauto.
    - cbn. eauto.
    - unfold np.iadd_square.
      rewrite length_outer, HA, Nat.eqb_refl, Hrows. cbn. eauto. }
  assert (Hsb : exists b', np.iadd_col (LinUCB.b bd) (np.scale reward x) = Some b').
  { destruct x as [|c1 [|c2 x']].
    - cbn. cbn in Hb. rewrite Hb. eauto.
    - cbn. eauto.
    - unfold np.iadd_col. rewrite length_scale, Hb, Nat.eqb_refl. cbn. eauto. }
  destruct HsA as [A' EA], Hsb as [b' Eb]. exists A', b'.
  rewrite EA. cbn [LinUCB.b LinUCB.d LinUCB.alpha LinUCB.A]. rewrite Eb. auto.
Qed.

(** C5. With an empty pending slot [observe_round_outcome] returns
    normally and changes nothing. With a pending context (whose size is
    that of the bandit's [A] and [b]) it runs [update(ctx, 1.0)] when the
    engine won and [update(ctx, -1.0)] otherwise, keeps the bandit that
    results, and empties the slot. *)
Theorem observe_round_outcome_spec (self : LearningAIDiceOpponent.t)
    (did_cpu_win_round : bool) :
  match LearningAIDiceOpponent._last_context self with
  | None =>
      LearningAIDiceOpponent.observe_round_outcome did_cpu_win_round self
        = (self, Ok tt)
  | Some (_, _, ctx) =>
      let bd := LearningAIDiceOpponent.bandit self in
      let reward := if did_cpu_win_round then 1%Q else (-1)%Q in
      length (LinUCB.A bd) = length ctx ->
      np.rows_have (length ctx) (LinUCB.A bd) = true ->
      length (LinUCB.b bd) = length ctx ->
      exists bd',
        LinUCB.update bd ctx reward = (bd', Ok tt) /\
        LearningAIDiceOpponent.observe_round_outcome did_cpu_win_round self
          = (LearningAIDiceOpponent.with_last_context
               (LearningAIDiceOpponent.with_bandit self bd') None, Ok tt) /\
        LearningAIDiceOpponent._last_context
          (fst (LearningAIDiceOpponent.observe_round_outcome did_cpu_win_round self))
          = None
  end.
Proof.
  unfold LearningAIDiceOpponent.observe_round_outcome.
  destruct (LearningAIDiceOpponent._last_context self) as [[[o a] ctx]|];
    [|reflexivity].
  cbv beta iota zeta. intros HA Hrows Hb.
  set (bd := LearningAIDiceOpponent.bandit self) in *.
  set (reward := if did_cpu_win_round then 1%Q else (-1)%Q).
  destruct (LinUCB_update_shaped bd ctx reward HA Hrows Hb) as (A' & b' & E & _).
  exists (LinUCB.mk (LinUCB.d bd) (LinUCB.alpha bd) A' b').
  rewrite E. auto.
Qed.

(** The statement on an engine with a [_make_context] attached that
    has just decided to raise against the claim (4,1), and then loses
    the round. *)
Lemma observe_round_outcome_spec_witness :
  let self :=
    fst (LearningAIDiceOpponent.decide_action Fixture.numpy (Some Fixture.make_context)
           "bob" (Some (4, 1)%Z) (4, 2)%Z 0%Z (Fixture.draws 0.9 0 0.9 0.1 0)
           Fixture.engine) in
  exists ctx bd',
    LearningAIDiceOpponent._last_context self = Some ("bob", "RAISE", ctx) /\
    LinUCB.update (LearningAIDiceOpponent.bandit self) ctx (-1) = (bd', Ok tt) /\
    LearningAIDiceOpponent._last_context
      (fst (LearningAIDiceOpponent.observe_round_outcome false self)) = None.
Proof.
  intros self.
  pose proof (observe_round_outcome_spec self false) as H.
  assert (E : LearningAIDiceOpponent._last_context self
              = Some ("bob", "RAISE", [0; 0; 0; 1 / (1 + 1); 1 / (1 + 2); 1; 1; 0; 1]%Q))
    by (vm_compute; reflexivity).
  rewrite E in H.
  destruct (H eq_refl eq_refl eq_refl) as (bd' & Hu & _ & Hc).
  eexists _, bd'. split; [exact E|]. split; [exact Hu | exact Hc].
Defined.

(** ** The frame of decide_action *)

Section Frame.
Import LearningAIDiceOpponent.

Lemma with_last_context_same (self : t) :
  with_last_context self (_last_context self) = self.
Proof. destruct self; reflexivity. Qed.

Lemma with_profiles_same (self : t) :
  with_profiles self (_profiles self) = self.
Proof. destruct self; reflexivity. Qed.

Lemma frame_refl (id : string) (self : t) : frame id self self.
Proof. exists (_last_context self). left. symmetry. apply with_last_context_same. Qed.

Lemma frame_trans (id : string) (s1 s2 s3 : t) :
  frame id s1 s2 -> frame id s2 s3 -> frame id s1 s3.
Proof.
  intros [c1 H1] [c2 H2]. exists c2.
  destruct H1 as [-> | [Hn ->]]; destruct H2 as [-> | [Hn' ->]]; cbn in *.
  - left. reflexivity.
  - right. split; [exact Hn'|]. reflexivity.
  - right. split; [exact Hn|]. reflexivity.
  - rewrite lookup_insert_eq in Hn'. discriminate.
Qed.

Lemma preserves_ret {X} (id : string) (x : X) : preserves id (ret x).
Proof. intros self. apply frame_refl. Qed.

Lemma preserves_reads {X} (id : string) (f : t -> result X) : preserves id (reads f).
Proof. intros self. apply frame_refl. Qed.

Lemma preserves_get (id : string) : preserves id get.
Proof. intros self. apply frame_refl. Qed.

Lemma preserves_assert_rules (id : string) : preserves id assert_rules.
Proof.
  intros self. unfold assert_rules.
  destruct (compare_claims self), (next_higher_claim self),
    (categorize_claim self), (claim_matches_roll self); apply frame_refl.
Qed.

Lemma preserves_set_last_context (id : string) c : preserves id (set_last_context c).
Proof. intros self. exists c. left. reflexivity. Qed.

Lemma preserves_profiles_getitem (id : string) : preserves id (profiles_getitem id).
Proof.
  intros self. unfold profiles_getitem.
  destruct (_profiles self !! id) eqn:E; cbn; [apply frame_refl|].
  exists (_last_context self). right. split; [exact E|].
  exact (eq_sym (with_last_context_same (with_profiles self _))).
Qed.

Lemma preserves_bind {X Y} (id : string) (m : M X) (k : X -> M Y) :
  preserves id m -> (forall x, preserves id (k x)) -> preserves id (bind m k).
Proof.
  intros Hm Hk self. unfold bind. specialize (Hm self).
  destruct (m self) as [s' [x|e]]; cbn in Hm |- *; [|exact Hm].
  eapply frame_trans; [exact Hm | apply Hk].
Qed.

Ltac frame_walk :=
  repeat first
    [ apply preserves_ret
    | apply preserves_reads
    | apply preserves_get
    | apply preserves_assert_rules
    | apply preserves_set_last_context
    | apply preserves_profiles_getitem
    | apply preserves_bind; [|intros ?]
    | match goal with
      | |- preserves _ (if ?c then _ else _) => destruct c
      | |- preserves _ (match ?x with _ => _ end) => destruct x
      end ].

Lemma decide_action_preserves (numpy : np.Numpy)
    (mk_ctx : option (Claim -> Z -> vec -> Q -> Q -> bool -> Q -> Q -> vec))
    (opponent_id : string) (current_claim : option Claim) (my_roll : Roll)
    (round_index : Z) (rnd : Draws) :
  preserves opponent_id
    (decide_action numpy mk_ctx opponent_id current_claim my_roll round_index rnd).
Proof. unfold decide_action. cbv zeta. frame_walk. Qed.

(** What [frame] says field by field. *)
Lemma frame_fields (id : string) (self self' : t) :
  frame id self self' ->
  bandit self' = bandit self /\
  (_profiles self' = _profiles self \/
   (_profiles self !! id = None /\
    _profiles self' = <[id := OpponentProfile.default]> (_profiles self))) /\
  (forall o p, _profiles self !! o = Some p -> _profiles self' !! o = Some p) /\
  compare_claims self' = compare_claims self /\
  next_higher_claim self' = next_higher_claim self /\
  categorize_claim self' = categorize_claim self /\
  claim_matches_roll self' = claim_matches_roll self /\
  call_risk_bias self' = call_risk_bias self /\
  raise_bluff_cap self' = raise_bluff_cap self /\
  truth_bias self' = truth_bias self.
Proof.
  intros [c [-> | [Hn ->]]]; cbn; repeat split; auto.
  intros o p Ho. destruct (decide (id = o)) as [<- | Hne]; [congruence|].
  rewrite lookup_insert_ne; assumption.
Qed.

End Frame.

(** C10. Whatever the opponent, the current claim, the roll and the
    draws, and whether it returns or raises, [decide_action] leaves the
    bandit ([A] and [b]) and every existing profile, hence every tracker
    counter, as they were; the profile mapping is either unchanged or
    extended by the default profile of an opponent that had none; the
    rule functions and the tuning constants are unchanged. Only the
    pending slot may otherwise differ. *)
Theorem decide_action_frame (numpy : np.Numpy)
    (mk_ctx : option (Claim -> Z -> vec -> Q -> Q -> bool -> Q -> Q -> vec))
    (self : LearningAIDiceOpponent.t)
    (opponent_id : string) (current_claim : option Claim) (my_roll : Roll)
    (round_index : Z) (rnd : Draws) :
  let self' :=
    fst (LearningAIDiceOpponent.decide_action numpy mk_ctx opponent_id
           current_claim my_roll round_index rnd self) in
  LearningAIDiceOpponent.bandit self' = LearningAIDiceOpponent.bandit self /\
  (forall o p,
     LearningAIDiceOpponent._profiles self !! o = Some p ->
     LearningAIDiceOpponent._profiles self' !! o = Some p) /\
  (LearningAIDiceOpponent._profiles self' = LearningAIDiceOpponent._profiles self \/
   (LearningAIDiceOpponent._profiles self !! opponent_id = None /\
    LearningAIDiceOpponent._profiles self'
      = <[opponent_id := OpponentProfile.default]>
          (LearningAIDiceOpponent._profiles self))) /\
  (exists c,
     self' = LearningAIDiceOpponent.with_last_context
               (LearningAIDiceOpponent.with_profiles self
                  (LearningAIDiceOpponent._profiles self')) c).
Proof.
  intros self'.
  pose proof (decide_action_preserves numpy mk_ctx opponent_id current_claim
                my_roll round_index rnd self) as Hf.
  fold self' in Hf.
  destruct (frame_fields _ _ _ Hf) as (Hb & Hp & Hold & _).
  repeat split; [exact Hb | exact Hold | exact Hp |].
  destruct Hf as [c [E | [Hn E]]]; exists c; rewrite E; cbn.
  - rewrite with_profiles_same. reflexivity.
  - reflexivity.
Qed.

(** ** The opening move *)

Lemma random_choice_112 (i : nat) :
  random_choice [1; 1; 2]%nat i = 1%nat \/ random_choice [1; 1; 2]%nat i = 2%nat.
Proof.
  unfold random_choice. cbn [length].
  pose proof (Nat.mod_upper_bound i 3 ltac:(lia)) as Hlt.
  destruct (i mod 3) as [|[|[|n]]]; cbn; auto; lia.
Qed.

(** C3, as the code has it. After [set_rules] on a fresh engine, an
    opening move ([current_claim] is [None]) with a roll whose truthful
    claim is in category "normal" returns a raise whose claim is the
    fixed baseline (3,2) lifted by [next_higher_claim] once or twice
    (the value of [random.choice([1, 1, 2])]), whatever the roll is; the
    engine is otherwise unchanged and its pending slot is empty. *)
Theorem opening_escalates_from_baseline (numpy : np.Numpy)
    (mk_ctx : option (Claim -> Z -> vec -> Q -> Q -> bool -> Q -> Q -> vec))
    (player_id : string)
    (cmp : Claim -> Claim -> Z) (nxt : Claim -> Claim)
    (catf : Claim -> string) (matches : Claim -> Roll -> bool)
    (opponent_id : string) (my_roll : Roll) (round_index : Z) (rnd : Draws) :
  catf (LearningAIDiceOpponent._canonical_claim_from_roll my_roll) = "normal" ->
  let self :=
    LearningAIDiceOpponent.set_rules (LearningAIDiceOpponent.init player_id)
      cmp nxt catf matches in
  let k := random_choice [1; 1; 2]%nat (pick rnd) in
  (k = 1%nat \/ k = 2%nat) /\
  LearningAIDiceOpponent.decide_action numpy mk_ctx opponent_id None my_roll
    round_index rnd self
  = (self, Ok (raise_claim (Nat.iter k nxt (3, 2)%Z))) /\
  LearningAIDiceOpponent._last_context self = None.
Proof.
  intros Hcat self k. split; [apply random_choice_112|]. split; [|reflexivity].
  unfold LearningAIDiceOpponent.decide_action, LearningAIDiceOpponent.bind,
    LearningAIDiceOpponent.assert_rules, LearningAIDiceOpponent.reads,
    LearningAIDiceOpponent.ret, LearningAIDiceOpponent.set_last_context,
    LearningAIDiceOpponent._is_weak_truth,
    LearningAIDiceOpponent._pressure_jump_above.
  cbn [self LearningAIDiceOpponent.set_rules LearningAIDiceOpponent.compare_claims
       LearningAIDiceOpponent.next_higher_claim
       LearningAIDiceOpponent.categorize_claim
       LearningAIDiceOpponent.claim_matches_roll call rbind].
  rewrite Hcat. cbn [String.eqb Ascii.eqb Bool.eqb].
  rewrite (climb_iter _ nxt) by reflexivity.
  reflexivity.
Qed.

Lemma opening_escalates_from_baseline_witness :
  LearningAIDiceOpponent.decide_action Fixture.numpy None
    "bob" None (4, 2)%Z 0%Z (Fixture.draws 0 0 0 0 2) Fixture.engine
  = (Fixture.engine, Ok (raise_claim (4, 2)%Z)).
Proof.
  exact (proj1 (proj2 (opening_escalates_from_baseline Fixture.numpy
                  None "CPU" Fixture.compare_claims
                  Fixture.next_higher_claim Fixture.categorize_claim
                  Fixture.claim_matches_roll "bob" (4, 2)%Z 0%Z
                  (Fixture.draws 0 0 0 0 2) eq_refl))).
Defined.

(** C3, as the claim states it, fails. With the rule set [Fixture], roll
    (4,2) (category "normal"): if [random.choice] returns 1 the opening
    claim is (4,1), which ranks below the truthful claim (4,2); if it
    returns 2 the opening claim is (4,2) itself. In neither case is it
    strictly greater. *)
Lemma opening_not_above_truthful_claim :
  Fixture.categorize_claim (4, 2)%Z = "normal" /\
  (exists c,
     snd (LearningAIDiceOpponent.decide_action Fixture.numpy None
            "bob" None (4, 2)%Z 0%Z (Fixture.draws 0 0 0 0 0) Fixture.engine)
     = Ok (raise_claim c) /\
     ~ (Fixture.compare_claims c (4, 2) > 0)%Z) /\
  (exists c,
     snd (LearningAIDiceOpponent.decide_action Fixture.numpy None
            "bob" None (4, 2)%Z 0%Z (Fixture.draws 0 0 0 0 2) Fixture.engine)
     = Ok (raise_claim c) /\
     ~ (Fixture.compare_claims c (4, 2) > 0)%Z).
Proof.
  split; [reflexivity|].
  split; [exists (4, 1)%Z | exists (4, 2)%Z]; (split; [vm_compute; reflexivity|]);
    vm_compute; discriminate.
Qed.

(** The failure does not depend on the rule set chosen: whenever the
    baseline (3,2) ranks below the truthful claim and [next_higher_claim]
    is the successor of the order (it never jumps over a claim), a single
    step from the baseline cannot pass the truthful claim. *)
Lemma opening_single_step_not_above (numpy : np.Numpy)
    (mk_ctx : option (Claim -> Z -> vec -> Q -> Q -> bool -> Q -> Q -> vec))
    (cmp : Claim -> Claim -> Z) (nxt : Claim -> Claim)
    (catf : Claim -> string) (matches : Claim -> Roll -> bool)
    (opponent_id : string) (my_roll : Roll) (round_index : Z) (rnd : Draws) :
  let truth := LearningAIDiceOpponent._canonical_claim_from_roll my_roll in
  catf truth = "normal" ->
  (cmp (3, 2) truth < 0)%Z ->
  (forall c d, cmp c d < 0 -> cmp (nxt c) d <= 0)%Z ->
  random_choice [1; 1; 2]%nat (pick rnd) = 1%nat ->
  exists c,
    snd (LearningAIDiceOpponent.decide_action numpy mk_ctx opponent_id None my_roll
           round_index rnd
           (LearningAIDiceOpponent.set_rules (LearningAIDiceOpponent.init "CPU")
              cmp nxt catf matches))
    = Ok (raise_claim c) /\
    (cmp c truth <= 0)%Z.
Proof.
  intros truth Hcat Hlow Hsucc Hpick.
  destruct (opening_escalates_from_baseline numpy mk_ctx "CPU" cmp nxt catf matches
              opponent_id my_roll round_index rnd Hcat) as (_ & Hrun & _).
  rewrite Hrun, Hpick. eexists. split; [reflexivity|].
  cbn [Nat.iter nat_rect]. apply Hsucc. exact Hlow.
Qed.

(** ** The bandit-routed decision *)

Section RulesOnly.
Import LearningAIDiceOpponent.

(** The utilities read nothing of the engine but its rule functions. *)
Lemma climb_rules (s1 s2 : t) (n : nat) (c : Claim) :
  next_higher_claim s1 = next_higher_claim s2 ->
  climb s1 n c = climb s2 n c.
Proof.
  intros Hn. revert c. induction n as [|n IH]; intros c; [reflexivity|].
  cbn [climb]. rewrite Hn. destruct (next_higher_claim s2); cbn; auto.
Qed.

Lemma count_steps_rules (s1 s2 : t) (target : Claim) (fuel steps : nat) (cur : Claim) :
  compare_claims s1 = compare_claims s2 ->
  next_higher_claim s1 = next_higher_claim s2 ->
  count_steps s1 target fuel steps cur = count_steps s2 target fuel steps cur.
Proof.
  intros Hc Hn. revert steps cur.
  induction fuel as [|fuel IH]; intros steps cur; cbn [count_steps]; rewrite Hc.
  - reflexivity.
  - destruct (compare_claims s2) as [cmp|]; cbn; [|reflexivity].
    destruct (cmp cur target <? 0)%Z; [|reflexivity].
    rewrite Hn. destruct (next_higher_claim s2); cbn; auto.
Qed.

Lemma distance_from_next_rules (s1 s2 : t) (cur : Claim) (roll : Roll) :
  compare_claims s1 = compare_claims s2 ->
  next_higher_claim s1 = next_higher_claim s2 ->
  _distance_from_next s1 cur roll = _distance_from_next s2 cur roll.
Proof.
  intros Hc Hn. unfold _distance_from_next.
  rewrite (count_steps_rules s1 s2 _ _ _ _ Hc Hn), Hc. reflexivity.
Qed.

Lemma pick_pressure_claim_rules (s1 s2 : t) cur allow opp r :
  next_higher_claim s1 = next_higher_claim s2 ->
  _pick_pressure_claim s1 cur allow opp r = _pick_pressure_claim s2 cur allow opp r.
Proof.
  intros Hn. unfold _pick_pressure_claim.
  destruct (BetaTracker.mean _); cbn; [|reflexivity].
  apply climb_rules. exact Hn.
Qed.

(** [self._profiles[opponent_id]] returns [profile_of] and leaves the
    rest of the engine alone. *)
Lemma profiles_getitem_spec (id : string) (self : t) :
  exists self1,
    profiles_getitem id self = (self1, Ok (profile_of self id)) /\
    frame id self self1 /\ _last_context self1 = _last_context self /\
    self1 = with_profiles self (<[id := profile_of self id]> (_profiles self)).
Proof.
  unfold profiles_getitem, profile_of.
  destruct (_profiles self !! id) as [p|] eqn:E; cbn.
  - exists self. repeat split; auto; [apply frame_refl|].
    rewrite insert_id by exact E. symmetry. apply with_profiles_same.
  - eexists. split; [reflexivity|]. split; [|split; reflexivity].
    exists (_last_context self). right. split; [exact E|].
    exact (eq_sym (with_last_context_same (with_profiles self _))).
Qed.

End RulesOnly.

(** The gate of lines 138-143, on an engine to which a [_make_context]
    has been attached. Suppose the four rules are set, the truthful fast
    path is not taken, and the bandit's choice between the challenge
    context and the raise context is "CALL". Let [s] be the Thompson
    sample of the
    opponent's bluff rate for the category of the current claim. Then
    [decide_action] returns [call_bluff] if and only if
    [2*s - 1 - call_risk_bias >= -0.15]; in that case the pending slot
    holds [(opponent_id, "CALL", ctx_call)]. Otherwise it returns a raise
    (the truthful claim or a pressure claim) and the pending slot holds
    [(opponent_id, "RAISE", ctx_raise)]. *)
Theorem challenge_gate (numpy : np.Numpy)
    (mk_ctx : Claim -> Z -> vec -> Q -> Q -> bool -> Q -> Q -> vec)
    (self : LearningAIDiceOpponent.t)
    (cmp : Claim -> Claim -> Z) (nxt : Claim -> Claim)
    (catf : Claim -> string) (matches : Claim -> Roll -> bool)
    (opponent_id : string) (current_claim : Claim) (my_roll : Roll)
    (round_index : Z) (rnd : Draws)
    (cat_bluff_mean p_call_mean dist s : Q) (scores : list (string * Q)) :
  LearningAIDiceOpponent.compare_claims self = Some cmp ->
  LearningAIDiceOpponent.next_higher_claim self = Some nxt ->
  LearningAIDiceOpponent.categorize_claim self = Some catf ->
  LearningAIDiceOpponent.claim_matches_roll self = Some matches ->
  let truth := LearningAIDiceOpponent._canonical_claim_from_roll my_roll in
  let has_truth := (0 <? cmp truth current_claim)%Z in
  has_truth && Qltb (u_truth rnd) (0.65 + LearningAIDiceOpponent.truth_bias self) = false ->
  let opp := profile_of self opponent_id in
  let tracker := OpponentProfile.bluff_get opp (catf current_claim) in
  BetaTracker.mean tracker = Ok cat_bluff_mean ->
  BetaTracker.mean (OpponentProfile.call_rate opp) = Ok p_call_mean ->
  LearningAIDiceOpponent._distance_from_next self current_claim my_roll = Ok dist ->
  let ctx_call :=
    mk_ctx current_claim round_index
      (LearningAIDiceOpponent._cat_onehot (catf current_claim))
      cat_bluff_mean p_call_mean has_truth dist 0%Q in
  let ctx_raise :=
    mk_ctx current_claim round_index
      (LearningAIDiceOpponent._cat_onehot (catf current_claim))
      cat_bluff_mean p_call_mean has_truth dist 1%Q in
  LinUCB.choose numpy (LearningAIDiceOpponent.bandit self)
    [("CALL", ctx_call); ("RAISE", ctx_raise)] = Ok ("CALL", scores) ->
  BetaTracker.thompson tracker (beta_sample rnd) = Ok s ->
  let ev_call := (2 * s - 1 - LearningAIDiceOpponent.call_risk_bias self)%Q in
  let out :=
    LearningAIDiceOpponent.decide_action numpy (Some mk_ctx) opponent_id
      (Some current_claim) my_roll round_index rnd self in
  (snd out = Ok call_bluff <-> (-0.15 <= ev_call)%Q) /\
  ((-0.15 <= ev_call)%Q ->
     LearningAIDiceOpponent._last_context (fst out)
       = Some (opponent_id, "CALL", ctx_call)) /\
  (~ (-0.15 <= ev_call)%Q ->
     LearningAIDiceOpponent._last_context (fst out)
       = Some (opponent_id, "RAISE", ctx_raise) /\
     exists claim,
       snd out = Ok (raise_claim claim) /\
       ((has_truth = true /\ claim = truth) \/
        LearningAIDiceOpponent._pick_pressure_claim self current_claim true opp
          (u_pressure rnd) = Ok claim)).
Proof.
  intros Hc Hn Hcat Hmr truth has_truth Hfast opp tracker Hbm Hcm Hdist
    ctx_call ctx_raise Hchoose Hs ev_call out.
  assert (Eh : (0 <? cmp truth current_claim)%Z = has_truth) by reflexivity.
  clearbody has_truth. destruct has_truth; cbn [andb] in Hfast.
  all: destruct (profiles_getitem_spec opponent_id self)
         as (self1 & Hget & Hframe & Hlast & _).
  all: destruct (frame_fields _ _ _ Hframe)
         as (Hbd & _ & _ & Hc1 & Hn1 & Hcat1 & _ & Hrisk & _ & Htb).
  all: destruct (pick_pressure_claim_steps self nxt current_claim opp
                   (u_pressure rnd) p_call_mean Hn Hcm) as (k & Hpclaim & _).
  all: assert (Hpclaim1 :
            LearningAIDiceOpponent._pick_pressure_claim self1 current_claim true opp
              (u_pressure rnd) = Ok (Nat.iter k nxt current_claim))
         by (rewrite (pick_pressure_claim_rules self1 self) by exact Hn1;
             exact Hpclaim).
  (* run the method up to the gate *)
  all: unfold out, LearningAIDiceOpponent.decide_action, LearningAIDiceOpponent.bind,
         LearningAIDiceOpponent.assert_rules, LearningAIDiceOpponent.reads,
         LearningAIDiceOpponent.get, LearningAIDiceOpponent.ret,
         LearningAIDiceOpponent.set_last_context,
         LearningAIDiceOpponent._best_truthful_above.
  all: cbv beta; rewrite Hc, Hn, Hcat, Hmr; cbn [call rbind]; rewrite Hc;
         cbn [call rbind]; fold truth; rewrite Eh; cbv beta iota.
  all: try rewrite Hfast.
  all: rewrite Hget, Hcat1, Hcat; cbn [call rbind]; fold opp; fold tracker.
  all: rewrite Hbm, Hcm, (distance_from_next_rules self1 self), Hdist by assumption.
  all: cbn [getattr]; cbv beta iota.
  all: fold ctx_call; fold ctx_raise; rewrite Hbd, Hchoose.
  all: cbn [fst String.eqb Ascii.eqb Bool.eqb]; rewrite Hs, Hrisk; fold ev_call.
  all: destruct (Qleb (-0.15) ev_call) eqn:Eg.
  all: try (apply Qleb_le in Eg; cbn;
            split; [split; auto|]; split; [auto | intros Hneg; contradiction]).
  all: assert (Hng : ~ (-0.15 <= ev_call)%Q)
         by (intros Hle; apply Qleb_le in Hle; congruence).
  - rewrite Htb.
    destruct (Qltb (u_raise rnd) _); rewrite ?Hpclaim1; cbn.
    + split; [split; [discriminate | intros; contradiction]|].
      split; [intros; contradiction|]. intros _. split; [reflexivity|].
      eexists. split; [reflexivity|]. left. auto.
    + split; [split; [discriminate | intros; contradiction]|].
      split; [intros; contradiction|]. intros _. split; [reflexivity|].
      eexists. split; [reflexivity|]. right. exact Hpclaim.
  - rewrite Hpclaim1; cbn.
    split; [split; [discriminate | intros; contradiction]|].
    split; [intros; contradiction|]. intros _. split; [reflexivity|].
    eexists. split; [reflexivity|]. right. exact Hpclaim.
Qed.

(** An engine whose bandit has learnt to avoid raising: [A] is the
    identity and [b] weighs the raise flag by -5. *)
Lemma challenge_gate_witness :
  let self :=
    fst (LearningAIDiceOpponent.load_state
           (Saved.mk None
              (Some (Saved.mk_bandit (np.eye 9) [0; 0; 0; 0; 0; 0; 0; 0; -5]%Q)))
           Fixture.engine) in
  let out :=
    LearningAIDiceOpponent.decide_action Fixture.numpy (Some Fixture.make_context)
      "bob" (Some (4, 1)%Z) (3, 1)%Z 0%Z (Fixture.draws 0 0.9 0 0 0) self in
  snd out = Ok call_bluff /\
  LearningAIDiceOpponent._last_context (fst out)
    = Some ("bob", "CALL", [0; 0; 0; 1 / (1 + 1); 1 / (1 + 2); 0; 0; 0; 0]%Q).
Proof.
  intros self out.
  set (ctxs := [("CALL", [0; 0; 0; 1 / (1 + 1); 1 / (1 + 2); 0; 0; 0; 0]%Q);
                ("RAISE", [0; 0; 0; 1 / (1 + 1); 1 / (1 + 2); 0; 0; 0; 1]%Q)]).
  set (scores :=
         match LinUCB.choose Fixture.numpy (LearningAIDiceOpponent.bandit self) ctxs with
         | Ok (_, sc) => sc
         | Err _ => []
         end).
  assert (Hchoose : LinUCB.choose Fixture.numpy (LearningAIDiceOpponent.bandit self) ctxs
                    = Ok ("CALL", scores)) by (vm_compute; reflexivity).
  destruct (challenge_gate Fixture.numpy Fixture.make_context self
              Fixture.compare_claims Fixture.next_higher_claim
              Fixture.categorize_claim Fixture.claim_matches_roll
              "bob" (4, 1)%Z (3, 1)%Z 0%Z (Fixture.draws 0 0.9 0 0 0)
              (1 / (1 + 1)) (1 / (1 + 2)) 0 0.9 scores
              eq_refl eq_refl eq_refl eq_refl eq_refl eq_refl eq_refl eq_refl
              Hchoose eq_refl) as (Hiff & Hctx & _).
  assert (Hgate : (-0.15 <= 2 * 0.9 - 1 - 0.05)%Q) by (vm_compute; discriminate).
  split; [apply Hiff; exact Hgate | apply Hctx; exact Hgate].
Defined.

(** C6. In the source as it is the gate is never reached:
    [decide_action] looks up [self._make_context] at line 115, before
    [bandit.choose], the Thompson sample and the gate, and the class does
    not define it. On an engine whose bandit prefers "CALL", with a
    Thompson sample of 0.9 (which passes the gate), the call raises
    [AttributeError] and leaves no pending context; the same call on the
    same engine with a [_make_context] attached returns [call_bluff] and
    records the challenge context. *)
Lemma challenge_gate_not_reached :
  let self :=
    fst (LearningAIDiceOpponent.load_state
           (Saved.mk None
              (Some (Saved.mk_bandit (np.eye 9) [0; 0; 0; 0; 0; 0; 0; 0; -5]%Q)))
           Fixture.engine) in
  let out :=
    LearningAIDiceOpponent.decide_action Fixture.numpy None
      "bob" (Some (4, 1)%Z) (3, 1)%Z 0%Z (Fixture.draws 0 0.9 0 0 0) self in
  let out' :=
    LearningAIDiceOpponent.decide_action Fixture.numpy (Some Fixture.make_context)
      "bob" (Some (4, 1)%Z) (3, 1)%Z 0%Z (Fixture.draws 0 0.9 0 0 0) self in
  snd out = Err AttributeError /\
  LearningAIDiceOpponent._last_context (fst out) = None /\
  snd out' = Ok call_bluff /\
  LearningAIDiceOpponent._last_context (fst out')
    = Some ("bob", "CALL", [0; 0; 0; 1 / (1 + 1); 1 / (1 + 2); 0; 0; 0; 0]%Q).
Proof.
  cbv zeta. repeat split; vm_compute; reflexivity.
Qed.

(** ** Categories missing from a profile *)

Lemma with_profiles_twice (self : LearningAIDiceOpponent.t) P P' :
  LearningAIDiceOpponent.with_profiles (LearningAIDiceOpponent.with_profiles self P) P'
  = LearningAIDiceOpponent.with_profiles self P'.
Proof. reflexivity. Qed.

(** C4, as the code has it. Let [cat] be a category without a tracker
    in the profile [opp]. The lookup of [decide_action]
    ([bluff_rate.get(cat, BetaTracker(1, 1))]) yields a tracker with
    counters (1, 1), whose mean and Thompson sample do not raise; it is
    a temporary: after [decide_action] the opponent's profile is still
    [opp], without a tracker for [cat]. [observe_showdown] does create
    the tracker (1, 1) in the mapping, and updates it with the outcome. *)
Theorem unknown_category_lookup (opp : OpponentProfile.t) (cat : string) :
  OpponentProfile.bluff_rate opp !! cat = None ->
  (OpponentProfile.bluff_get opp cat = BetaTracker.mk 1 1 /\
   BetaTracker.mean (OpponentProfile.bluff_get opp cat) = Ok (1 / (1 + 1))%Q /\
   forall sample, BetaTracker.thompson (OpponentProfile.bluff_get opp cat) sample
                  = Ok sample) /\
  (forall numpy mk_ctx self opponent_id current_claim my_roll round_index rnd,
     LearningAIDiceOpponent._profiles self !! opponent_id = Some opp ->
     LearningAIDiceOpponent._profiles
       (fst (LearningAIDiceOpponent.decide_action numpy mk_ctx opponent_id
               current_claim my_roll round_index rnd self)) !! opponent_id
     = Some opp) /\
  (forall self opponent_id claim roll caller_is_cpu catf matches,
     LearningAIDiceOpponent.categorize_claim self = Some catf ->
     LearningAIDiceOpponent.claim_matches_roll self = Some matches ->
     catf claim = cat ->
     profile_of self opponent_id = opp ->
     LearningAIDiceOpponent.observe_showdown opponent_id claim roll caller_is_cpu self
     = (LearningAIDiceOpponent.with_profiles self
          (<[opponent_id :=
               OpponentProfile.mk
                 (<[cat := BetaTracker.update (negb (matches claim roll))
                             (BetaTracker.mk 1 1)]>
                    (OpponentProfile.bluff_rate opp))
                 (OpponentProfile.call_rate opp)
                 (OpponentProfile.small_raise_pref opp)]>
             (LearningAIDiceOpponent._profiles self)),
        Ok tt)).
Proof.
  intros Hnone. split; [|split].
  - unfold OpponentProfile.bluff_get. rewrite Hnone. repeat split.
  - intros numpy mk_ctx self id cur roll round rnd Hopp.
    destruct (decide_action_frame numpy mk_ctx self id cur roll round rnd)
      as (_ & Hold & _).
    apply Hold. exact Hopp.
  - intros self id claim roll cic catf matches Hcat Hmr Hc Hopp.
    unfold LearningAIDiceOpponent.observe_showdown, LearningAIDiceOpponent.bind,
      LearningAIDiceOpponent.reads.
    cbv beta. rewrite Hmr, Hcat. cbn [call rbind]. rewrite Hc.
    destruct (profiles_getitem_spec id self) as (self1 & Hget & _ & _ & ->).
    rewrite Hget, Hopp.
    unfold OpponentProfile.setdefault. rewrite Hnone.
    unfold LearningAIDiceOpponent.profiles_store.
    cbn [LearningAIDiceOpponent._profiles LearningAIDiceOpponent.with_profiles].
    rewrite !insert_insert_eq. reflexivity.
Qed.

Lemma unknown_category_lookup_witness :
  OpponentProfile.bluff_get OpponentProfile.default "special" = BetaTracker.mk 1 1 /\
  LearningAIDiceOpponent._profiles
    (fst (LearningAIDiceOpponent.observe_showdown "bob" (4, 1)%Z (6, 5)%Z true
            Fixture.engine)) !! "bob"
  = Some (OpponentProfile.mk
            (<["special" := BetaTracker.mk (1 + 1) 1]> OpponentProfile.default_bluff_rate)
            (BetaTracker.mk 1 2) (BetaTracker.mk 1 1)).
Proof.
  destruct (unknown_category_lookup OpponentProfile.default "special" eq_refl)
    as ((Hget & _) & _ & Hshow).
  split; [exact Hget|].
  rewrite (Hshow Fixture.engine "bob" (4, 1)%Z (6, 5)%Z true
             Fixture.categorize_claim Fixture.claim_matches_roll
             eq_refl eq_refl eq_refl eq_refl).
  cbn [fst LearningAIDiceOpponent._profiles LearningAIDiceOpponent.with_profiles].
  apply lookup_insert_eq.
Defined.

(** C4, as the claim states it, fails for [decide_action]. A fresh
    engine decides against the claim (4,1), of category "special", for
    which the default profile has no tracker. The call reads the bluff
    rate of "special" (line 111) and stops at line 115, where
    [_make_context] is missing; with a [_make_context] attached it goes
    on to the Thompson sample and returns an action. Either way the
    profile of "bob" has no tracker for "special" afterwards: the tracker
    that was read was never put in the mapping. *)
Lemma decide_action_creates_no_tracker :
  let out :=
    LearningAIDiceOpponent.decide_action Fixture.numpy None
      "bob" (Some (4, 1)%Z) (3, 1)%Z 0%Z (Fixture.draws 0 0.9 0 0 0) Fixture.engine in
  let out' :=
    LearningAIDiceOpponent.decide_action Fixture.numpy (Some Fixture.make_context)
      "bob" (Some (4, 1)%Z) (3, 1)%Z 0%Z (Fixture.draws 0 0.9 0 0 0) Fixture.engine in
  Fixture.categorize_claim (4, 1)%Z = "special" /\
  snd out = Err AttributeError /\
  snd out' = Ok (raise_claim (4, 2)%Z) /\
  exists p,
    LearningAIDiceOpponent._profiles (fst out) !! "bob" = Some p /\
    LearningAIDiceOpponent._profiles (fst out') !! "bob" = Some p /\
    OpponentProfile.bluff_rate p !! "special" = None /\
    ~ is_Some (OpponentProfile.bluff_rate p !! "special").
Proof.
  cbv zeta. split; [reflexivity|]. split; [vm_compute; reflexivity|].
  split; [vm_compute; reflexivity|].
  exists OpponentProfile.default.
  split; [vm_compute; reflexivity|]. split; [vm_compute; reflexivity|].
  split; [reflexivity|]. intros [x Hx]. vm_compute in Hx. discriminate.
Qed.

(** ** state and load_state *)

Section LoadState.
Import LearningAIDiceOpponent.

Lemma load_bluff_insert (k : string) (ab : Q * Q) (d : gmap string BetaTracker.t) :
  load_bluff k ab d = <[k := pair_tracker ab]> d.
Proof.
  unfold load_bluff, OpponentProfile.setdefault, pair_tracker.
  apply map_eq. intros j.
  destruct (decide (k = j)) as [<-|Hne].
  - rewrite lookup_insert_eq.
    destruct (d !! k) as [tr|] eqn:E; cbn [fst].
    + rewrite !lookup_alter_eq, E. reflexivity.
    + rewrite !lookup_alter_eq, lookup_insert_eq. reflexivity.
  - rewrite lookup_insert_ne by exact Hne.
    rewrite !lookup_alter_ne by exact Hne.
    destruct (d !! k); cbn [fst]; [reflexivity|].
    apply lookup_insert_ne. exact Hne.
Qed.

(** A loop of insertions over the items of a dictionary overlays the
    (mapped) dictionary on the initial one. *)
Lemma fold_insert_union {V W} (g : string -> V -> gmap string W -> gmap string W)
    (f : V -> W) (m : gmap string V) (m0 : gmap string W) :
  (forall k v acc, g k v acc = <[k := f v]> acc) ->
  map_fold g m0 m = (f <$> m) ∪ m0.
Proof.
  intros Hg.
  apply (map_fold_weak_ind (fun r m => r = (f <$> m) ∪ m0)).
  - rewrite fmap_empty, (left_id_L ∅ (∪)). reflexivity.
  - intros k v m' r _ ->. rewrite Hg, fmap_insert, insert_union_l. reflexivity.
Qed.

Lemma load_profile_bluff_rate (data : Saved.profile) :
  OpponentProfile.bluff_rate (load_profile data)
  = (pair_tracker <$> Saved.bluff_rate data) ∪ OpponentProfile.default_bluff_rate.
Proof.
  unfold load_profile. cbn [OpponentProfile.bluff_rate OpponentProfile.default].
  apply fold_insert_union. intros k v acc. apply load_bluff_insert.
Qed.

Lemma tracker_pair_of_pair (ab : Q * Q) : tracker_pair (pair_tracker ab) = ab.
Proof. destruct ab; reflexivity. Qed.

(** What [state()] writes for a profile built by [load_state]. *)
Lemma profile_state_load_profile (data : Saved.profile) :
  profile_state (load_profile data)
  = Saved.mk_profile (Saved.bluff_rate data ∪ default_pairs)
      (Saved.call_rate data) (Saved.small_raise_pref data).
Proof.
  unfold profile_state. rewrite load_profile_bluff_rate.
  rewrite map_fmap_union, <- map_fmap_compose.
  rewrite (map_fmap_ext _ id) by (intros; apply tracker_pair_of_pair).
  rewrite map_fmap_id.
  unfold load_profile.
  cbn [OpponentProfile.call_rate OpponentProfile.small_raise_pref].
  fold (pair_tracker (Saved.call_rate data)).
  fold (pair_tracker (Saved.small_raise_pref data)).
  rewrite !tracker_pair_of_pair. reflexivity.
Qed.

Lemma union_defaults_listed (data : Saved.profile) :
  lists_defaults data ->
  Saved.bluff_rate data ∪ default_pairs = Saved.bluff_rate data.
Proof.
  intros Hl. apply map_eq. intros k. rewrite lookup_union.
  destruct (Saved.bluff_rate data !! k) as [ab|] eqn:E.
  - destruct (default_pairs !! k); reflexivity.
  - destruct (default_pairs !! k) as [cd|] eqn:Ed; [|reflexivity].
    exfalso. unfold default_pairs in Ed. rewrite lookup_fmap in Ed.
    destruct (OpponentProfile.default_bluff_rate !! k) eqn:E0; [|discriminate].
    destruct (Hl k (ex_intro _ _ E0)) as [x Hx]. congruence.
Qed.

(** [load_state] on a state whose matrix, if any, is rectangular. *)
Lemma load_state_run (st : Saved.t) (self : t) :
  match Saved.bandit st with
  | Some bs => np.rows_have (np.ncols (Saved.A bs)) (Saved.A bs) = true
  | None => True
  end ->
  load_state st self
  = (with_profiles
       (with_bandit self
          match Saved.bandit st with
          | Some bs => LinUCB.mk (LinUCB.d (bandit self)) (LinUCB.alpha (bandit self))
                         (Saved.A bs) (Saved.b bs)
          | None => bandit self
          end)
       ((load_profile <$> default ∅ (Saved.profiles st)) ∪ _profiles self),
     Ok tt).
Proof.
  intros Hrect. unfold load_state.
  destruct (Saved.bandit st) as [bs|].
  - unfold np.array2. rewrite Hrect. cbn [rbind].
    rewrite (fold_insert_union _ load_profile) by reflexivity. reflexivity.
  - rewrite (fold_insert_union _ load_profile) by reflexivity. reflexivity.
Qed.

(** When [load_state] returns normally, it did what [load_state_run]
    says. *)
Lemma load_state_ok_inv (st : Saved.t) (self self' : t) :
  load_state st self = (self', Ok tt) ->
  _profiles self' = (load_profile <$> default ∅ (Saved.profiles st)) ∪ _profiles self.
Proof.
  unfold load_state.
  destruct (Saved.bandit st) as [bs|].
  - unfold np.array2. destruct (np.rows_have _ _); cbn [rbind]; [|discriminate].
    rewrite (fold_insert_union _ load_profile) by reflexivity.
    intros [= <-]. reflexivity.
  - rewrite (fold_insert_union _ load_profile) by reflexivity.
    intros [= <-]. reflexivity.
Qed.

End LoadState.

(** C1, as the code has it. When [load_state] returns, the profile it
    built for an opponent of the state starts from a new
    [OpponentProfile()]: it has a tracker, with the saved pair, for every
    category the state lists, and the default tracker for each of
    "mexican" (1, 3), "double" (1, 2), "normal" (1, 1) that the state
    does not list; it has no tracker for any other category. *)
Theorem load_state_profile_categories (st : Saved.t)
    (self self' : LearningAIDiceOpponent.t)
    (ps : gmap string Saved.profile) (opponent_id : string) (data : Saved.profile) :
  LearningAIDiceOpponent.load_state st self = (self', Ok tt) ->
  Saved.profiles st = Some ps ->
  ps !! opponent_id = Some data ->
  exists p,
    LearningAIDiceOpponent._profiles self' !! opponent_id = Some p /\
    OpponentProfile.bluff_rate p
      = (pair_tracker <$> Saved.bluff_rate data) ∪ OpponentProfile.default_bluff_rate /\
    (forall k,
       OpponentProfile.bluff_rate p !! k
       = match Saved.bluff_rate data !! k with
         | Some ab => Some (pair_tracker ab)
         | None => OpponentProfile.default_bluff_rate !! k
         end) /\
    (forall k,
       Saved.bluff_rate data !! k = None ->
       k <> "mexican" -> k <> "double" -> k <> "normal" ->
       OpponentProfile.bluff_rate p !! k = None).
Proof.
  intros Hload Hps Hdata.
  apply load_state_ok_inv in Hload. rewrite Hps in Hload.
  change (default ∅ (Some ps)) with ps in Hload.
  exists (LearningAIDiceOpponent.load_profile data).
  assert (Hk : forall k,
             OpponentProfile.bluff_rate (LearningAIDiceOpponent.load_profile data) !! k
             = match Saved.bluff_rate data !! k with
               | Some ab => Some (pair_tracker ab)
               | None => OpponentProfile.default_bluff_rate !! k
               end).
  { intros k. rewrite load_profile_bluff_rate, lookup_union, lookup_fmap.
    destruct (Saved.bluff_rate data !! k); cbn.
    - destruct (OpponentProfile.default_bluff_rate !! k); reflexivity.
    - destruct (OpponentProfile.default_bluff_rate !! k); reflexivity. }
  split; [|split; [apply load_profile_bluff_rate | split; [exact Hk|]]].
  - rewrite Hload, lookup_union, lookup_fmap, Hdata. cbn.
    destruct (LearningAIDiceOpponent._profiles self !! opponent_id); reflexivity.
  - intros k Hnone H1 H2 H3. rewrite Hk, Hnone.
    unfold OpponentProfile.default_bluff_rate.
    rewrite !lookup_insert_ne by congruence. apply lookup_empty.
Qed.

Lemma load_state_profile_categories_witness :
  let data := Saved.mk_profile {["double" := (2, 10)%Q]} (1, 2)%Q (1, 1)%Q in
  let st := Saved.mk (Some {["bob" := data]}) None in
  let out := LearningAIDiceOpponent.load_state st (LearningAIDiceOpponent.init "CPU") in
  exists p,
    LearningAIDiceOpponent._profiles (fst out) !! "bob" = Some p /\
    OpponentProfile.bluff_rate p !! "double" = Some (BetaTracker.mk 2 10) /\
    OpponentProfile.bluff_rate p !! "normal" = Some (BetaTracker.mk 1 1) /\
    OpponentProfile.bluff_rate p !! "special" = None.
Proof.
  intros data st out.
  assert (Hrun : out = (fst out, Ok tt)) by (vm_compute; reflexivity).
  assert (Hbob : ({["bob" := data]} : gmap string Saved.profile) !! "bob" = Some data)
    by (vm_compute; reflexivity).
  destruct (load_state_profile_categories st (LearningAIDiceOpponent.init "CPU")
              (fst out) {["bob" := data]} "bob" data Hrun eq_refl Hbob)
    as (p & Hp & _ & Hk & Habs).
  exists p. split; [exact Hp|].
  split; [rewrite Hk; vm_compute; reflexivity|].
  split; [rewrite Hk; vm_compute; reflexivity|].
  apply Habs; [vm_compute; reflexivity | discriminate | discriminate | discriminate].
Defined.

(** C1, as the claim states it, fails. The state lists only "double" for
    "bob"; the profile rebuilt from it also has trackers for "normal"
    and "mexican", with the default priors. *)
Lemma load_state_adds_default_trackers :
  let data := Saved.mk_profile {["double" := (2, 10)%Q]} (1, 2)%Q (1, 1)%Q in
  let out :=
    LearningAIDiceOpponent.load_state (Saved.mk (Some {["bob" := data]}) None)
      (LearningAIDiceOpponent.init "CPU") in
  snd out = Ok tt /\
  Saved.bluff_rate data !! "normal" = None /\
  Saved.bluff_rate data !! "mexican" = None /\
  exists p,
    LearningAIDiceOpponent._profiles (fst out) !! "bob" = Some p /\
    OpponentProfile.bluff_rate p !! "normal" = Some (BetaTracker.mk 1 1) /\
    OpponentProfile.bluff_rate p !! "mexican" = Some (BetaTracker.mk 1 3) /\
    dom (OpponentProfile.bluff_rate p) <> dom (Saved.bluff_rate data).
Proof.
  cbv zeta. split; [reflexivity|]. split; [reflexivity|]. split; [reflexivity|].
  eexists. split; [vm_compute; reflexivity|].
  split; [reflexivity|]. split; [reflexivity|].
  intros Hdom.
  match type of Hdom with
  | dom ?m = _ => assert (Hin : "normal" ∈ dom m) by (apply elem_of_dom; eexists; reflexivity)
  end.
  rewrite Hdom in Hin.
  apply elem_of_dom in Hin. destruct Hin as [x Hx]. vm_compute in Hx. discriminate.
Qed.

(** C2, as the code has it. Let [st] have both keys and a rectangular
    [A]. Then [load_state(st)] returns and [state()] afterwards has the
    [A] and [b] of [st], and for each opponent of [st] the saved
    [call_rate] and [small_raise_pref] pairs and the saved categories
    with their pairs, together with the default pairs of the categories
    "mexican", "double", "normal" that [st] does not list. Hence, if
    every profile of [st] lists these three categories and the engine
    holds no profile of an opponent outside [st], [state()] is [st]. *)
Theorem load_state_then_state (self : LearningAIDiceOpponent.t)
    (ps : gmap string Saved.profile) (bs : Saved.bandit_state) :
  np.rows_have (np.ncols (Saved.A bs)) (Saved.A bs) = true ->
  let st := Saved.mk (Some ps) (Some bs) in
  exists self',
    LearningAIDiceOpponent.load_state st self = (self', Ok tt) /\
    Saved.bandit (LearningAIDiceOpponent.state self') = Some bs /\
    (exists got,
       Saved.profiles (LearningAIDiceOpponent.state self') = Some got /\
       forall opponent_id data,
         ps !! opponent_id = Some data ->
         got !! opponent_id
         = Some (Saved.mk_profile (Saved.bluff_rate data ∪ default_pairs)
                   (Saved.call_rate data) (Saved.small_raise_pref data))) /\
    ((forall opponent_id data, ps !! opponent_id = Some data -> lists_defaults data) ->
     (forall opponent_id,
        is_Some (LearningAIDiceOpponent._profiles self !! opponent_id) ->
        is_Some (ps !! opponent_id)) ->
     LearningAIDiceOpponent.state self' = st).
Proof.
  intros Hrect st.
  pose proof (load_state_run st self Hrect) as Hrun.
  cbn [st Saved.bandit Saved.profiles] in Hrun.
  change (default ∅ (Some ps)) with ps in Hrun.
  eexists. split; [exact Hrun|].
  assert (Hgot : forall opponent_id data,
            ps !! opponent_id = Some data ->
            (LearningAIDiceOpponent.profile_state <$>
               ((LearningAIDiceOpponent.load_profile <$> ps)
                  ∪ LearningAIDiceOpponent._profiles self)) !! opponent_id
            = Some (Saved.mk_profile (Saved.bluff_rate data ∪ default_pairs)
                      (Saved.call_rate data) (Saved.small_raise_pref data))).
  { intros id data Hd.
    rewrite lookup_fmap, lookup_union, lookup_fmap, Hd. cbn.
    destruct (LearningAIDiceOpponent._profiles self !! id); cbn;
      rewrite profile_state_load_profile; reflexivity. }
  split; [destruct bs; reflexivity|].
  split; [eexists; split; [reflexivity | exact Hgot]|].
  intros Hlists Hdom.
  unfold LearningAIDiceOpponent.state, st.
  cbn [LearningAIDiceOpponent._profiles LearningAIDiceOpponent.with_profiles
       LearningAIDiceOpponent.bandit LearningAIDiceOpponent.with_bandit
       LinUCB.A LinUCB.b].
  f_equal; [|destruct bs; reflexivity].
  f_equal. apply map_eq. intros id.
  destruct (ps !! id) as [data|] eqn:Hd.
  - rewrite (Hgot id data Hd), (union_defaults_listed data (Hlists id data Hd)).
    destruct data; reflexivity.
  - rewrite lookup_fmap, lookup_union, lookup_fmap, Hd. cbn.
    destruct (LearningAIDiceOpponent._profiles self !! id) as [p|] eqn:Hp;
      [|reflexivity].
    destruct (Hdom id (ex_intro _ p Hp)) as [x Hx]. congruence.
Qed.

Lemma load_state_then_state_witness :
  let st :=
    Saved.mk
      (Some {["bob" := Saved.mk_profile
                         (<["mexican" := (1, 4)%Q]>
                            (<["double" := (2, 10)%Q]> {["normal" := (3, 2)%Q]}))
                         (1, 2)%Q (5, 1)%Q]})
      (Some (Saved.mk_bandit (np.eye 2) [1; -1]%Q)) in
  LearningAIDiceOpponent.state
    (fst (LearningAIDiceOpponent.load_state st (LearningAIDiceOpponent.init "CPU")))
  = st.
Proof.
  intros st.
  destruct (load_state_then_state (LearningAIDiceOpponent.init "CPU")
              {["bob" := Saved.mk_profile
                         (<["mexican" := (1, 4)%Q]>
                            (<["double" := (2, 10)%Q]> {["normal" := (3, 2)%Q]}))
                         (1, 2)%Q (5, 1)%Q]}
              (Saved.mk_bandit (np.eye 2) [1; -1]%Q) eq_refl)
    as (self' & Hrun & _ & _ & Hall).
  fold st in Hrun, Hall. rewrite Hrun. cbn [fst]. apply Hall.
  - intros id data Hd k [tr Hk].
    destruct (decide (id = "bob")) as [->|Hne].
    + rewrite lookup_singleton_eq in Hd. injection Hd as <-.
      cbn [Saved.bluff_rate].
      unfold OpponentProfile.default_bluff_rate in Hk.
      destruct (decide (k = "mexican")) as [->|H1]; [eexists; reflexivity|].
      destruct (decide (k = "double")) as [->|H2]; [eexists; reflexivity|].
      destruct (decide (k = "normal")) as [->|H3]; [eexists; reflexivity|].
      rewrite !lookup_insert_ne, lookup_empty in Hk by congruence. discriminate.
    + rewrite lookup_singleton_ne in Hd by congruence. discriminate.
  - intros id [p Hp]. cbn in Hp. rewrite lookup_empty in Hp. discriminate.
Defined.

(** C2, as the claim states it, fails. The state lists only "double" for
    "bob"; after [load_state], [state()] lists "normal" and "mexican" for
    "bob" as well, so it is not the state that was loaded. *)
Lemma load_state_then_state_differs :
  let data := Saved.mk_profile {["double" := (2, 10)%Q]} (1, 2)%Q (1, 1)%Q in
  let st := Saved.mk (Some {["bob" := data]})
              (Some (Saved.mk_bandit (np.eye 2) [1; -1]%Q)) in
  let out := LearningAIDiceOpponent.load_state st (LearningAIDiceOpponent.init "CPU") in
  snd out = Ok tt /\
  (exists got data',
     Saved.profiles (LearningAIDiceOpponent.state (fst out)) = Some got /\
     got !! "bob" = Some data' /\
     Saved.bluff_rate data' !! "normal" = Some (1, 1)%Q /\
     Saved.bluff_rate data !! "normal" = None) /\
  LearningAIDiceOpponent.state (fst out) <> st.
Proof.
  cbv zeta. split; [reflexivity|].
  split.
  - eexists _, _. split; [reflexivity|].
    split; [vm_compute; reflexivity|]. split; reflexivity.
  - intros Heq.
    apply (f_equal (fun s : Saved.t =>
                      match Saved.profiles s return option (Q * Q) with
                      | Some m =>
                          match m !! "bob" with
                          | Some d => Saved.bluff_rate d !! "normal"
                          | None => None
                          end
                      | None => None
                      end)) in Heq.
    vm_compute in Heq. discriminate.
Qed.

(** ** The design matrix of LinUCB *)

Section DesignMatrix.
Local Open Scope Q_scope.

(** *** Dot products *)

Lemma dotp_nil_r (u : vec) : np.dotp u [] = 0.
Proof. destruct u; reflexivity. Qed.

Lemma dotp_comm (u v : vec) : np.dotp u v == np.dotp v u.
Proof.
  revert v. induction u as [|a u IH]; intros [|c v]; cbn; try reflexivity.
  rewrite IH. ring.
Qed.

Lemma dotp_scale_l (c : Q) (u v : vec) :
  np.dotp (np.scale c u) v == c * np.dotp u v.
Proof.
  revert v. induction u as [|a u IH]; intros [|e v]; cbn; try ring.
  rewrite IH. ring.
Qed.

Lemma dotp_vadd_l (r s v : vec) :
  length r = length s ->
  np.dotp (np.vadd r s) v == np.dotp r v + np.dotp s v.
Proof.
  revert s v. induction r as [|a r IH]; intros [|c s] v Hlen; cbn in Hlen;
    try discriminate.
  - cbn. ring.
  - destruct v as [|e v]; cbn; [ring|].
    rewrite IH by lia. ring.
Qed.

Lemma dotp_zeros_l (n : nat) (v : vec) : np.dotp (np.zeros n) v == 0.
Proof.
  revert v. induction n as [|n IH]; intros [|e v]; cbn; try reflexivity.
  rewrite IH. ring.
Qed.

(** [u . (f r1, f r2, ...)] only depends on [f] up to [==]. *)
Lemma dotp_map_ext {X} (f g : X -> Q) (u : vec) (l : list X) :
  (forall x, f x == g x) -> np.dotp u (map f l) == np.dotp u (map g l).
Proof.
  intros Hfg. revert u. induction l as [|x l IH]; intros [|a u]; cbn;
    try reflexivity.
  rewrite IH, Hfg. reflexivity.
Qed.

Lemma dotp_self_nonneg (v : vec) : 0 <= np.dotp v v.
Proof.
  induction v as [|a v IH]; cbn; [apply Qle_refl|].
  assert (0 <= a * a) by nra. lra.
Qed.

Lemma dotp_self_pos (v : vec) : ~ is_zero v -> 0 < np.dotp v v.
Proof.
  induction v as [|a v IH]; intros Hnz.
  - exfalso. apply Hnz. constructor.
  - cbn. pose proof (dotp_self_nonneg v) as Hv.
    destruct (Qeq_dec a 0) as [Ha|Ha].
    + assert (0 < np.dotp v v).
      { apply IH. intros Hz. apply Hnz. constructor; assumption. }
      assert (0 <= a * a) by nra. lra.
    + assert (0 < a * a) by (destruct (Qlt_le_dec a 0); nra).
      lra.
Qed.

Lemma dotp_zero_r (u w : vec) : is_zero w -> np.dotp u w == 0.
Proof.
  intros Hw. revert u. induction Hw as [|x w Hx Hw IH]; intros [|a u]; cbn;
    try reflexivity.
  rewrite IH, Hx. ring.
Qed.

(** *** Quadratic forms *)

Lemma bilinear_madd (u v : vec) (M N : matrix) :
  Forall2 (fun r s => length r = length s) M N ->
  np.dotp u (mv (np.madd M N) v) == np.dotp u (mv M v) + np.dotp u (mv N v).
Proof.
  intros Hshape. revert u. unfold mv, np.madd.
  induction Hshape as [|r s M N Hrs Hshape IH]; intros u.
  - cbn. rewrite dotp_nil_r. ring.
  - destruct u as [|a u]; cbn [map zip_with np.dotp]; [ring|].
    rewrite (IH u), (dotp_vadd_l r s v Hrs). ring.
Qed.

Lemma bilinear_outer (u x y v : vec) :
  np.dotp u (mv (map (fun a => np.scale a y) x) v) == np.dotp u x * np.dotp y v.
Proof.
  revert u. unfold mv. induction x as [|a x IH]; intros u.
  - cbn. rewrite !dotp_nil_r. ring.
  - destruct u as [|e u]; cbn [map np.dotp]; [ring|].
    rewrite (IH u), dotp_scale_l. ring.
Qed.

Lemma outer_rows_shape (n : nat) (M : matrix) (x y : vec) :
  length M = length x -> Forall (fun r => length r = n) M -> length y = n ->
  Forall2 (fun r s => length r = length s) M (map (fun a => np.scale a y) x).
Proof.
  intros Hlen Hrows Hy. revert x Hlen.
  induction Hrows as [|r M Hr Hrows IH]; intros [|a x] Hlen; cbn in Hlen;
    try discriminate; cbn; constructor.
  - rewrite length_scale. congruence.
  - apply IH. lia.
Qed.

Lemma qform_add_outer (n : nat) (M : matrix) (y v : vec) :
  is_square n M -> length y = n ->
  qform (np.madd M (np.outer y)) v == qform M v + np.dotp y v * np.dotp y v.
Proof.
  intros [HM Hrows] Hy. unfold qform, np.outer.
  rewrite bilinear_madd.
  - rewrite bilinear_outer, (dotp_comm v y). reflexivity.
  - apply (outer_rows_shape n); [congruence | exact Hrows | exact Hy].
Qed.

Lemma qform_eye (n : nat) (v : vec) :
  length v = n -> qform (np.eye n) v == np.dotp v v.
Proof.
  revert v. induction n as [|n IH]; intros [|a v] Hlen; cbn in Hlen;
    try discriminate; [reflexivity|].
  unfold qform, mv. cbn [np.eye map np.dotp]. rewrite map_map.
  rewrite (dotp_map_ext _ (fun r => np.dotp r v)).
  - fold (mv (np.eye n) v). fold (qform (np.eye n) v).
    rewrite IH by lia. rewrite dotp_zeros_l. ring.
  - intros r. cbn. ring.
Qed.

(** *** Shapes and entries *)

Lemma length_eye (n : nat) : length (np.eye n) = n.
Proof. induction n as [|n IH]; cbn; [reflexivity|]. rewrite length_map, IH. reflexivity. Qed.

Lemma eye_square (n : nat) : is_square n (np.eye n).
Proof.
  split; [apply length_eye|].
  induction n as [|n IH]; cbn; constructor.
  - cbn. unfold np.zeros. rewrite repeat_length. reflexivity.
  - apply Forall_map. eapply Forall_impl; [exact IH|].
    intros r Hr. cbn. congruence.
Qed.

Lemma madd_outer_square (n : nat) (M : matrix) (y : vec) :
  is_square n M -> length y = n -> is_square n (np.madd M (np.outer y)).
Proof.
  intros [HM Hrows] Hy. unfold np.madd, np.outer. split.
  - rewrite length_zip_with, length_map. lia.
  - assert (Hgen : forall x, Forall (fun r => length r = n)
                               (zip_with np.vadd M (map (fun a => np.scale a y) x))).
    { clear HM. induction Hrows as [|r M Hr Hrows IH]; intros [|a x]; cbn;
        constructor; [|apply IH].
      unfold np.vadd. rewrite length_zip_with, length_scale. lia. }
    apply Hgen.
Qed.

Lemma entry_madd (M N : matrix) (i j : nat) :
  entry (np.madd M N) i j
  = entry M i j ≫= fun a => entry N i j ≫= fun c => Some (a + c).
Proof.
  unfold entry, np.madd. rewrite lookup_zip_with.
  destruct (M !! i) as [r|]; cbn; [|reflexivity].
  destruct (N !! i) as [s|]; cbn.
  - unfold np.vadd. rewrite lookup_zip_with. reflexivity.
  - destruct (r !! j); reflexivity.
Qed.

Lemma entry_outer (y : vec) (i j : nat) :
  entry (np.outer y) i j = y !! i ≫= fun a => y !! j ≫= fun c => Some (a * c).
Proof.
  unfold entry, np.outer. rewrite list_lookup_fmap.
  destruct (y !! i) as [a|]; cbn; [|reflexivity].
  unfold np.scale. rewrite list_lookup_fmap.
  destruct (y !! j); reflexivity.
Qed.

Lemma Qmult_comm_eq (a c : Q) : a * c = c * a.
Proof. unfold Qmult. rewrite Z.mul_comm, Pos.mul_comm. reflexivity. Qed.

Lemma madd_outer_symmetric (M : matrix) (y : vec) :
  symmetric M -> symmetric (np.madd M (np.outer y)).
Proof.
  intros Hsym i j. rewrite !entry_madd, !entry_outer, (Hsym i j).
  destruct (entry M j i); cbn; [|reflexivity].
  destruct (y !! i), (y !! j); cbn; try reflexivity.
  rewrite Qmult_comm_eq. reflexivity.
Qed.

Lemma lookup_zeros (n j : nat) :
  np.zeros n !! j = if (j <? n)%nat then Some 0 else None.
Proof.
  unfold np.zeros. revert j.
  induction n as [|n IH]; intros [|j]; try reflexivity.
  exact (IH j).
Qed.

Lemma eye_first_column (n i : nat) :
  map (cons 0) (np.eye n) !! i ≫= (fun r => r !! O)
  = if (i <? n)%nat then Some 0 else None.
Proof.
  rewrite list_lookup_fmap.
  destruct (i <? n)%nat eqn:E.
  - apply Nat.ltb_lt in E.
    destruct (lookup_lt_is_Some_2 (np.eye n) i) as [r Hr];
      [rewrite length_eye; exact E|].
    rewrite Hr. reflexivity.
  - apply Nat.ltb_ge in E.
    rewrite (proj2 (lookup_ge_None (np.eye n) i)); [reflexivity|].
    rewrite length_eye. exact E.
Qed.

Lemma eye_symmetric (n : nat) : symmetric (np.eye n).
Proof.
  induction n as [|n IH]; intros i j.
  - unfold entry. cbn. rewrite !lookup_nil. reflexivity.
  - destruct i as [|i], j as [|j]; [reflexivity| | |].
    + unfold entry. cbn [np.eye]. cbn [lookup list_lookup mbind option_bind].
      change (np.zeros n !! j = map (cons 0) (np.eye n) !! j ≫= (fun r => r !! O)).
      rewrite lookup_zeros, eye_first_column. reflexivity.
    + unfold entry. cbn [np.eye]. cbn [lookup list_lookup mbind option_bind].
      change (map (cons 0) (np.eye n) !! i ≫= (fun r => r !! O) = np.zeros n !! i).
      rewrite lookup_zeros, eye_first_column. reflexivity.
    + specialize (IH i j). unfold entry in IH |- *. cbn [np.eye].
      change ((map (cons 0) (np.eye n)) !! i ≫= (fun r => r !! S j)
              = (map (cons 0) (np.eye n)) !! j ≫= (fun r => r !! S i)).
      rewrite !list_lookup_fmap.
      destruct (np.eye n !! i) as [r|], (np.eye n !! j) as [s|]; cbn in IH |- *;
        exact IH.
Qed.

(** *** update *)

(** Adding a broadcast 1 by 1 array [[c * c]] is adding the outer
    product of the constant vector [c, ..., c]. *)
Lemma broadcast_row (n : nat) (c : Q) (r : vec) :
  length r = n ->
  np.vadd r (np.scale c (repeat c n)) = map (fun a => a + c * c) r.
Proof.
  revert r. induction n as [|n IH]; intros [|a r] Hlen; cbn in Hlen;
    try discriminate; [reflexivity|].
  cbn. f_equal. apply IH. lia.
Qed.

Lemma broadcast_outer (n : nat) (c : Q) (M : matrix) :
  is_square n M ->
  map (map (fun a => a + c * c)) M = np.madd M (np.outer (repeat c n)).
Proof.
  intros [HM Hrows]. unfold np.madd, np.outer.
  assert (Hgen : forall k, length M = k ->
            map (map (fun a => a + c * c)) M
            = zip_with np.vadd M
                (map (fun a => np.scale a (repeat c n)) (repeat c k))).
  { clear HM. induction Hrows as [|r M Hr Hrows IH]; intros k Hk; cbn in Hk;
      subst k; [reflexivity|].
    cbn. f_equal; [symmetry; apply broadcast_row; exact Hr | apply IH; reflexivity]. }
  apply Hgen. exact HM.
Qed.

Lemma iadd_square_outer (n : nat) (M M' : matrix) (x : vec) :
  is_square n M ->
  np.iadd_square M (np.outer x) = Some M' ->
  exists y, length y = n /\ M' = np.madd M (np.outer y).
Proof.
  intros Hsq Hadd. pose proof Hsq as [HM _].
  destruct x as [|c [|c2 x]].
  - cbn in Hadd.
    destruct (length M =? 0)%nat eqn:E; cbn in Hadd; [|discriminate].
    apply Nat.eqb_eq in E.
    destruct (np.rows_have 0 M); [|discriminate]. injection Hadd as <-.
    exists []. split; [cbn; congruence | reflexivity].
  - cbn in Hadd. injection Hadd as <-.
    exists (repeat c n). split; [apply repeat_length|].
    apply broadcast_outer. exact Hsq.
  - unfold np.iadd_square in Hadd.
    change (np.outer (c :: c2 :: x))
      with (np.scale c (c :: c2 :: x) :: np.scale c2 (c :: c2 :: x)
            :: map (fun a => np.scale a (c :: c2 :: x)) x) in Hadd at 1.
    cbv beta iota in Hadd.
    destruct (length M =? _)%nat eqn:E; cbn [andb] in Hadd; [|discriminate].
    destruct (np.rows_have _ M); [|discriminate]. injection Hadd as <-.
    apply Nat.eqb_eq in E. rewrite length_outer in E.
    exists (c :: c2 :: x). split; [congruence | reflexivity].
Qed.

Lemma update_A_cases (n : nat) (bd : LinUCB.t) (x : vec) (reward : Q) :
  is_square n (LinUCB.A bd) ->
  LinUCB.A (fst (LinUCB.update bd x reward)) = LinUCB.A bd \/
  exists y, length y = n /\
    LinUCB.A (fst (LinUCB.update bd x reward))
    = np.madd (LinUCB.A bd) (np.outer y).
Proof.
  intros Hsq. unfold LinUCB.update.
  destruct (np.iadd_square (LinUCB.A bd) (np.outer x)) as [A'|] eqn:E;
    [|left; reflexivity].
  right. destruct (iadd_square_outer n _ _ _ Hsq E) as (y & Hy & ->).
  exists y. split; [exact Hy|].
  destruct (np.iadd_col _ _); reflexivity.
Qed.

(** *** The invariant *)

Lemma design_invariant_eye (n : nat) : design_invariant n (np.eye n).
Proof.
  split; [apply eye_square|]. split; [apply eye_symmetric|].
  intros v Hlen Hnz. rewrite qform_eye by exact Hlen.
  apply dotp_self_pos. exact Hnz.
Qed.

Lemma design_invariant_add_outer (n : nat) (M : matrix) (y : vec) :
  length y = n -> design_invariant n M ->
  design_invariant n (np.madd M (np.outer y)).
Proof.
  intros Hy (Hsq & Hsym & Hpd).
  split; [apply madd_outer_square; assumption|].
  split; [apply madd_outer_symmetric; assumption|].
  intros v Hlen Hnz. rewrite (qform_add_outer n) by assumption.
  specialize (Hpd v Hlen Hnz).
  assert (0 <= np.dotp y v * np.dotp y v) by nra. lra.
Qed.

Lemma design_invariant_run (n : nat) (calls : list (vec * Q)) (bd : LinUCB.t) :
  design_invariant n (LinUCB.A bd) ->
  design_invariant n (LinUCB.A (run_updates calls bd)).
Proof.
  revert bd. induction calls as [|[x reward] calls IH]; intros bd Hinv;
    [exact Hinv|].
  unfold run_updates. cbn [fold_left fst snd]. apply IH.
  destruct (update_A_cases n bd x reward (proj1 Hinv)) as [-> | (y & Hy & ->)];
    [exact Hinv|].
  apply design_invariant_add_outer; assumption.
Qed.

Lemma is_zero_dec (v : vec) : {is_zero v} + {~ is_zero v}.
Proof.
  induction v as [|a v [IH|IH]].
  - left. constructor.
  - destruct (Qeq_dec a 0) as [Ha|Ha].
    + left. constructor; assumption.
    + right. intros Hz. inversion Hz. contradiction.
  - right. intros Hz. inversion Hz. contradiction.
Qed.

Lemma positive_definite_nonsingular (n : nat) (M : matrix) :
  positive_definite n M -> nonsingular n M.
Proof.
  intros Hpd v Hlen Hz.
  destruct (is_zero_dec v) as [Hv|Hv]; [exact Hv|].
  exfalso. specialize (Hpd v Hlen Hv).
  unfold qform in Hpd. rewrite (dotp_zero_r v _ Hz) in Hpd.
  revert Hpd. apply Qlt_irrefl.
Qed.

End DesignMatrix.

(** Over exact rationals, that is, without rounding: from
    [LinUCB(d, alpha)], after any sequence of [update] calls with any
    vectors and rewards (the calls that raise for a vector of
    the wrong size included), the design matrix [A] is [d] by [d], equal
    to its transpose, and positive definite: [v.T A v > 0] for every
    non-zero [v]; hence only the zero vector is sent to zero by [A],
    which is what invertible means. *)
Theorem design_matrix_symmetric_positive_definite (d : nat) (alpha : Q)
    (calls : list (vec * Q)) :
  let A := LinUCB.A (run_updates calls (LinUCB.init d alpha)) in
  is_square d A /\ symmetric A /\ positive_definite d A /\ nonsingular d A.
Proof.
  intros A.
  destruct (design_invariant_run d calls (LinUCB.init d alpha)
              (design_invariant_eye d)) as (Hsq & Hsym & Hpd).
  fold A in Hsq, Hsym, Hpd.
  repeat split; try assumption; try apply Hsq.
  apply positive_definite_nonsingular. exact Hpd.
Qed.

(** * Further properties of the engine *)

(** ** decide_action: what it returns and what it leaves pending *)

Ltac unfold_engine :=
  unfold LearningAIDiceOpponent.decide_action, LearningAIDiceOpponent.bind,
    LearningAIDiceOpponent.assert_rules, LearningAIDiceOpponent.reads,
    LearningAIDiceOpponent.get, LearningAIDiceOpponent.ret,
    LearningAIDiceOpponent.set_last_context,
    LearningAIDiceOpponent.profiles_getitem,
    LearningAIDiceOpponent.profiles_store in *.

Ltac split_cases :=
  repeat (cbv beta in *; cbn [fst snd] in *;
          match goal with
          | |- context [match ?x with _ => _ end] => destruct x eqn:?
          | H : context [match ?x with _ => _ end] |- _ => destruct x eqn:?
          end).

(** X1. What [decide_action] returns agrees with what it leaves pending
    for [observe_round_outcome]. When it returns an action: with an empty
    pending slot the action is a raise; with a pending context the
    context is tagged with this opponent, tag "CALL" goes with the action
    [call_bluff] and tag "RAISE" with a raise. A challenge is therefore
    never left without its context. *)
Theorem decide_action_pending_matches_action (numpy : np.Numpy)
    (mk_ctx : option (Claim -> Z -> vec -> Q -> Q -> bool -> Q -> Q -> vec))
    (self : LearningAIDiceOpponent.t)
    (opponent_id : string) (current_claim : option Claim) (my_roll : Roll)
    (round_index : Z) (rnd : Draws) (a : Action) :
  let out :=
    LearningAIDiceOpponent.decide_action numpy mk_ctx opponent_id
      current_claim my_roll round_index rnd self in
  snd out = Ok a ->
  match LearningAIDiceOpponent._last_context (fst out) with
  | None => exists c, a = raise_claim c
  | Some (o, act, ctx) =>
      o = opponent_id /\
      ((act = "CALL" /\ a = call_bluff) \/
       (act = "RAISE" /\ exists c, a = raise_claim c))
  end.
Proof.
  intros out. subst out. unfold_engine.
  split_cases.
  all: intros Hout; try discriminate; cbn in *; simplify_eq; eauto 6.
Qed.

Lemma decide_action_pending_matches_action_witness :
  let out :=
    LearningAIDiceOpponent.decide_action Fixture.numpy None "bob"
      (Some (3, 1)%Z) (5, 6)%Z 0%Z (Fixture.draws 0.5 0 0 0 0) Fixture.engine in
  match LearningAIDiceOpponent._last_context (fst out) with
  | None => exists c, raise_claim (6, 5)%Z = raise_claim c
  | Some (o, act, ctx) =>
      o = "bob" /\
      ((act = "CALL" /\ raise_claim (6, 5)%Z = call_bluff) \/
       (act = "RAISE" /\ exists c, raise_claim (6, 5)%Z = raise_claim c))
  end.
Proof.
  intros out.
  apply (decide_action_pending_matches_action Fixture.numpy None
           Fixture.engine "bob" (Some (3, 1)%Z) (5, 6)%Z 0%Z
           (Fixture.draws 0.5 0 0 0 0) (raise_claim (6, 5)%Z)).
  vm_compute. reflexivity.
Defined.

(** ** decide_action: the exceptions it can raise *)

Section Errors.
Import LearningAIDiceOpponent.

Lemma call_error {F} (f : option F) (e : exn) :
  call f = Err e -> e = TypeError /\ f = None.
Proof. destruct f; cbn; intros H; [discriminate|]. injection H as <-. auto. Qed.

Lemma mean_error (tr : BetaTracker.t) (e : exn) :
  BetaTracker.mean tr = Err e -> e = ZeroDivisionError.
Proof.
  unfold BetaTracker.mean. destruct (Qeq_bool _ _); intros H; [|discriminate].
  injection H as <-. reflexivity.
Qed.

Lemma thompson_error (tr : BetaTracker.t) (s : Q) (e : exn) :
  BetaTracker.thompson tr s = Err e -> e = ValueError.
Proof.
  unfold BetaTracker.thompson. destruct (_ && _); intros H; [discriminate|].
  injection H as <-. reflexivity.
Qed.

Lemma shaped_error {X} (o : option X) (e : exn) :
  LinUCB.shaped o = Err e -> e = ValueError.
Proof. destruct o; cbn; intros H; [discriminate|]. injection H as <-. reflexivity. Qed.

Lemma score_error numpy bd Ainv theta x e :
  LinUCB.score numpy bd Ainv theta x = Err e -> e = ValueError.
Proof.
  unfold LinUCB.score. cbv zeta.
  repeat (match goal with
          | |- context [LinUCB.shaped ?o] => destruct (LinUCB.shaped o) eqn:?
          end; cbn [rbind]).
  all: intros H; try discriminate; injection H as <-.
  all: eapply shaped_error; eassumption.
Qed.

Lemma scores_of_error numpy bd Ainv theta ctxs e :
  LinUCB.scores_of numpy bd Ainv theta ctxs = Err e -> e = ValueError.
Proof.
  induction ctxs as [|[act x] ctxs IH]; cbn [LinUCB.scores_of]; [intros [=]|].
  destruct (LinUCB.score numpy bd Ainv theta x) eqn:E1; cbn [rbind];
    [|intros [= <-]; eapply score_error; eassumption].
  destruct (LinUCB.scores_of numpy bd Ainv theta ctxs) eqn:E2; cbn [rbind];
    [intros [=]|intros [= <-]; apply IH; reflexivity].
Qed.

(** [choose] raises [LinAlgError] (no inverse) or [ValueError] (sizes
    that do not fit, or no context at all), nothing else. *)
Lemma choose_error numpy bd ctxs e :
  LinUCB.choose numpy bd ctxs = Err e -> e = LinAlgError \/ e = ValueError.
Proof.
  unfold LinUCB.choose, LinUCB._Ainv.
  destruct (np.linalg_inv numpy (LinUCB.A bd)) as [Ainv|]; cbn [rbind];
    [|intros [= <-]; auto].
  destruct (LinUCB.shaped (np.matvec Ainv (LinUCB.b bd))) eqn:E1; cbn [rbind];
    [|intros [= <-]; right; eapply shaped_error; eassumption].
  destruct (LinUCB.scores_of numpy bd Ainv a ctxs) eqn:E2; cbn [rbind];
    [|intros [= <-]; right; eapply scores_of_error; eassumption].
  destruct a0 as [|[k v] l]; cbn; [intros [= <-]; auto | intros [=]].
Qed.

Lemma climb_error (s : t) (n : nat) (c : Claim) (e : exn) :
  climb s n c = Err e -> e = TypeError /\ next_higher_claim s = None.
Proof.
  destruct (next_higher_claim s) as [nxt|] eqn:E.
  - rewrite (climb_iter s nxt n c E). intros [=].
  - destruct n; cbn [climb]; [intros [=]|]. rewrite E. cbn. intros [= <-]. auto.
Qed.

Lemma count_steps_error (s : t) target fuel steps cur e :
  count_steps s target fuel steps cur = Err e ->
  e = TypeError /\ (compare_claims s = None \/ next_higher_claim s = None).
Proof.
  revert steps cur. induction fuel as [|fuel IH]; intros steps cur;
    cbn [count_steps]; destruct (compare_claims s) as [cmp|]; cbn [call rbind];
    try (intros [= <-]; auto).
  - destruct (cmp cur target <? 0)%Z; intros [=].
  - destruct (cmp cur target <? 0)%Z; [|intros [=]].
    destruct (next_higher_claim s) as [nxt|]; cbn [call rbind];
      [|intros [= <-]; auto].
    intros H. destruct (IH _ _ H) as [-> [?|?]]; [discriminate|discriminate].
Qed.

Lemma distance_error (s : t) cur roll e :
  _distance_from_next s cur roll = Err e ->
  e = TypeError /\ (compare_claims s = None \/ next_higher_claim s = None).
Proof.
  unfold _distance_from_next.
  destruct (compare_claims s) as [cmp|] eqn:Ec; cbn [call rbind];
    [|intros [= <-]; auto].
  destruct (_ <=? 0)%Z; [intros [=]|].
  destruct (count_steps s _ 20 0 cur) eqn:E; cbn [rbind]; [intros [=]|].
  intros [= <-]. destruct (count_steps_error _ _ _ _ _ _ E) as [-> [H|H]]; auto.
  congruence.
Qed.

Lemma pick_pressure_error (s : t) cur allow opp r e :
  _pick_pressure_claim s cur allow opp r = Err e ->
  (e = ZeroDivisionError /\
   BetaTracker.mean (OpponentProfile.call_rate opp) = Err ZeroDivisionError) \/
  (e = TypeError /\ next_higher_claim s = None).
Proof.
  unfold _pick_pressure_claim.
  destruct (BetaTracker.mean _) eqn:E; cbn [rbind].
  - intros H. right. eapply climb_error. exact H.
  - intros [= <-]. left. pose proof (mean_error _ _ E) as ->. auto.
Qed.

End Errors.

Section RuleErrors.
Import LearningAIDiceOpponent.

Lemma best_truthful_error (s : t) cur roll e :
  _best_truthful_above s cur roll = Err e -> e = TypeError /\ compare_claims s = None.
Proof.
  unfold _best_truthful_above. destruct (compare_claims s); cbn; intros [=]. auto.
Qed.

Lemma is_weak_truth_error (s : t) c e :
  _is_weak_truth s c = Err e -> e = TypeError /\ categorize_claim s = None.
Proof.
  unfold _is_weak_truth. destruct (categorize_claim s); cbn; intros [=]. auto.
Qed.

Lemma categorize_error (s : t) (c : Claim) e :
  (f <- call (categorize_claim s) ;; Ok (f c))%result = Err e ->
  e = TypeError /\ categorize_claim s = None.
Proof. destruct (categorize_claim s); cbn; intros [=]. auto. Qed.

End RuleErrors.

Ltac error_kind :=
  match goal with
  | H : LearningAIDiceOpponent._best_truthful_above _ _ _ = Err _ |- _ =>
      apply best_truthful_error in H
  | H : LearningAIDiceOpponent._is_weak_truth _ _ = Err _ |- _ =>
      apply is_weak_truth_error in H
  | H : rbind (call (LearningAIDiceOpponent.categorize_claim _)) _ = Err _ |- _ =>
      apply categorize_error in H
  | H : LearningAIDiceOpponent._pressure_jump_above _ _ _ = Err _ |- _ =>
      apply climb_error in H
  | H : LearningAIDiceOpponent._distance_from_next _ _ _ = Err _ |- _ =>
      apply distance_error in H
  | H : LearningAIDiceOpponent._pick_pressure_claim _ _ _ _ _ = Err _ |- _ =>
      apply pick_pressure_error in H
  | H : BetaTracker.mean _ = Err _ |- _ => apply mean_error in H
  | H : BetaTracker.thompson _ _ = Err _ |- _ => apply thompson_error in H
  | H : LinUCB.choose _ _ _ = Err _ |- _ => apply choose_error in H
  end.

Section Exceptions.
Import LearningAIDiceOpponent.

(** X2. [decide_action] raises [AssertionError] exactly when one of the
    four rule functions is missing, and then leaves the engine as it
    was. With the rules injected it can raise [ZeroDivisionError] (a
    tracker whose counters sum to zero) and, [_make_context] being
    missing, [AttributeError], and nothing else. [ValueError] and
    [LinAlgError] (from the bandit or the Beta sampler) can only come
    from an engine to which a [_make_context] has been attached. It never
    fails by calling a missing rule. *)
Theorem decide_action_exceptions (numpy : np.Numpy)
    (mk_ctx : option (Claim -> Z -> vec -> Q -> Q -> bool -> Q -> Q -> vec))
    (self : t) (opponent_id : string) (current_claim : option Claim)
    (my_roll : Roll) (round_index : Z) (rnd : Draws) :
  let out :=
    decide_action numpy mk_ctx opponent_id current_claim my_roll round_index rnd self in
  (~ rules_set self -> out = (self, Err AssertionError)) /\
  (forall e, snd out = Err e ->
     (e = AssertionError /\ ~ rules_set self) \/
     (rules_set self /\
      (e = ZeroDivisionError \/
       (e = AttributeError /\ mk_ctx = None) \/
       (is_Some mk_ctx /\ (e = ValueError \/ e = LinAlgError))))).
Proof.
  intros out. subst out. unfold rules_set.
  destruct (compare_claims self) as [cmp|] eqn:Hc;
    [destruct (next_higher_claim self) as [nxt|] eqn:Hn;
     [destruct (categorize_claim self) as [catf|] eqn:Hcat;
      [destruct (claim_matches_roll self) as [mr|] eqn:Hmr|]|]|].
  2-5: unfold decide_action, bind, assert_rules; rewrite ?Hc, ?Hn, ?Hcat, ?Hmr;
       (split; [reflexivity|]); intros e [= <-]; left; split; [reflexivity|];
       intros (H1 & H2 & H3 & H4);
       match goal with H : is_Some None |- _ => destruct H as [? H']; discriminate H' end.
  split; [intros Hno; exfalso; apply Hno; eauto 10|].
  intros e Hout. right. split; [eauto 10|]. revert Hout.
  unfold_engine. rewrite Hc, Hn, Hcat, Hmr.
  destruct mk_ctx as [mk|]; cbn [getattr].
  all: split_cases.
  all: cbn [fst snd]; intros Hout; try discriminate; simplify_eq/=.
  all: repeat error_kind; cbn in *.
  all: repeat match goal with
              | H : _ /\ _ |- _ => destruct H
              | H : _ \/ _ |- _ => destruct H
              end; subst; eauto 7; try congruence.
Qed.

End Exceptions.

Section Decisions.
Import LearningAIDiceOpponent.

Lemma best_truthful_some (s : t) (cmp : Claim -> Claim -> Z) cur roll c :
  compare_claims s = Some cmp ->
  _best_truthful_above s cur roll = Ok (Some c) ->
  c = _canonical_claim_from_roll roll /\ (0 < cmp c cur)%Z.
Proof.
  intros Hc. unfold _best_truthful_above. rewrite Hc. cbn [call rbind].
  destruct (0 <? cmp _ cur)%Z eqn:E; intros [=]. subst c.
  split; [reflexivity|]. apply Z.ltb_lt. exact E.
Qed.

Lemma pick_pressure_ok (s : t) (nxt : Claim -> Claim) cur opp r c :
  next_higher_claim s = Some nxt ->
  _pick_pressure_claim s cur true opp r = Ok c ->
  exists k, (1 <= k <= 3)%nat /\ c = Nat.iter k nxt cur.
Proof.
  intros Hn. unfold _pick_pressure_claim.
  destruct (BetaTracker.mean (OpponentProfile.call_rate opp)) as [p|e];
    cbn [rbind]; [|discriminate].
  rewrite (climb_iter s nxt _ _ Hn). intros [= <-].
  destruct (Qltb 0.55 p && Qltb r 0.50), (Qltb 0.65 p && Qltb r 0.25);
    [exists 3%nat | exists 2%nat | exists 3%nat | exists 1%nat];
    (split; [lia | reflexivity]).
Qed.

(** X3. Every raise [decide_action] answers to a current claim is
    either the truthful claim of the roll, and then that claim ranks
    strictly above the current claim, or the current claim lifted by one,
    two or three applications of [next_higher_claim]. *)
Theorem raise_is_truthful_or_pressure (numpy : np.Numpy)
    (mk_ctx : option (Claim -> Z -> vec -> Q -> Q -> bool -> Q -> Q -> vec))
    (self : t) (cmp : Claim -> Claim -> Z) (nxt : Claim -> Claim)
    (opponent_id : string) (current_claim : Claim)
    (my_roll : Roll) (round_index : Z) (rnd : Draws) (c : Claim) :
  compare_claims self = Some cmp ->
  next_higher_claim self = Some nxt ->
  snd (decide_action numpy mk_ctx opponent_id (Some current_claim) my_roll
         round_index rnd self) = Ok (raise_claim c) ->
  (c = _canonical_claim_from_roll my_roll /\ (0 < cmp c current_claim)%Z) \/
  (exists k, (1 <= k <= 3)%nat /\ c = Nat.iter k nxt current_claim).
Proof.
  intros Hc Hn. unfold_engine. rewrite Hc, Hn.
  split_cases.
  all: cbn [fst snd]; intros Hout; try discriminate; simplify_eq/=.
  all: try (left; eapply best_truthful_some; eassumption).
  all: right; eapply pick_pressure_ok; [|eassumption]; exact Hn.
Qed.

Lemma raise_is_truthful_or_pressure_witness :
  ((6, 5)%Z = _canonical_claim_from_roll (5, 6)%Z /\
   (0 < Fixture.compare_claims (6, 5) (3, 1))%Z) \/
  (exists k, (1 <= k <= 3)%nat /\
     (6, 5)%Z = Nat.iter k Fixture.next_higher_claim (3, 1)%Z).
Proof.
  apply (raise_is_truthful_or_pressure Fixture.numpy None
           Fixture.engine Fixture.compare_claims Fixture.next_higher_claim
           "bob" (3, 1)%Z (5, 6)%Z 0%Z (Fixture.draws 0.5 0 0 0 0) (6, 5)%Z
           eq_refl eq_refl).
  vm_compute. reflexivity.
Defined.

(** X4. The truthful fast path: when the rules are set, the truthful
    claim of the roll ranks above the current claim and the first draw is
    below [0.65 + truth_bias], [decide_action] raises with the truthful
    claim, empties the pending slot, and touches nothing else: no profile
    is created, even for an opponent never seen before. *)
Theorem truthful_fast_path (numpy : np.Numpy)
    (mk_ctx : option (Claim -> Z -> vec -> Q -> Q -> bool -> Q -> Q -> vec))
    (self : t) (cmp : Claim -> Claim -> Z)
    (opponent_id : string) (current_claim : Claim)
    (my_roll : Roll) (round_index : Z) (rnd : Draws) :
  rules_set self ->
  compare_claims self = Some cmp ->
  let truth := _canonical_claim_from_roll my_roll in
  (0 < cmp truth current_claim)%Z ->
  (u_truth rnd < 0.65 + truth_bias self)%Q ->
  decide_action numpy mk_ctx opponent_id (Some current_claim) my_roll
    round_index rnd self
  = (with_last_context self None, Ok (raise_claim truth)).
Proof.
  intros (_ & [nxt Hn] & [catf Hcat] & [mr Hmr]) Hc truth Habove Hcoin.
  unfold decide_action, bind, assert_rules, reads, get, ret, set_last_context,
    _best_truthful_above.
  subst truth. cbv beta. rewrite Hc, Hn, Hcat, Hmr. cbn [call rbind].
  rewrite Hc. cbn [call rbind].
  rewrite (proj2 (Z.ltb_lt _ _) Habove). cbv beta iota.
  rewrite (proj2 (Qltb_lt _ _) Hcoin). reflexivity.
Qed.

Lemma truthful_fast_path_witness :
  decide_action Fixture.numpy None "bob" (Some (3, 1)%Z)
    (5, 6)%Z 0%Z (Fixture.draws 0.5 0 0 0 0) Fixture.engine
  = (Fixture.engine, Ok (raise_claim (6, 5)%Z)).
Proof.
  apply (truthful_fast_path Fixture.numpy None Fixture.engine
           Fixture.compare_claims "bob" (3, 1)%Z (5, 6)%Z 0%Z
           (Fixture.draws 0.5 0 0 0 0)).
  - repeat split; eexists; reflexivity.
  - reflexivity.
  - reflexivity.
  - reflexivity.
Defined.

(** X5. The opening move on any engine whose rules are set: the claim
    raised is the truthful claim of the roll, unless that claim is in
    category "normal", in which case it is the baseline (3,2) lifted once
    or twice; the engine only loses its pending context. *)
Theorem opening_move (numpy : np.Numpy)
    (mk_ctx : option (Claim -> Z -> vec -> Q -> Q -> bool -> Q -> Q -> vec))
    (self : t) (nxt : Claim -> Claim) (catf : Claim -> string)
    (opponent_id : string) (my_roll : Roll) (round_index : Z) (rnd : Draws) :
  rules_set self ->
  next_higher_claim self = Some nxt ->
  categorize_claim self = Some catf ->
  let truth := _canonical_claim_from_roll my_roll in
  decide_action numpy mk_ctx opponent_id None my_roll round_index rnd self
  = (with_last_context self None,
     Ok (raise_claim
           (if String.eqb (catf truth) "normal"
            then Nat.iter (random_choice [1; 1; 2]%nat (pick rnd)) nxt (3, 2)%Z
            else truth))).
Proof.
  intros ([cmp Hc] & _ & _ & [mr Hmr]) Hn Hcat truth.
  unfold decide_action, bind, assert_rules, reads, get, ret, set_last_context,
    _is_weak_truth, _pressure_jump_above.
  subst truth. cbv beta. rewrite Hc, Hn, Hcat, Hmr. cbn [call rbind].
  rewrite Hcat. cbn [call rbind].
  destruct (String.eqb (catf _) "normal"); [|reflexivity].
  rewrite (climb_iter self nxt) by exact Hn. reflexivity.
Qed.

Lemma opening_move_witness :
  decide_action Fixture.numpy None "bob" None (3, 3)%Z 0%Z
    (Fixture.draws 0 0 0 0 0) Fixture.engine
  = (Fixture.engine, Ok (raise_claim (3, 3)%Z)).
Proof.
  apply (opening_move Fixture.numpy None Fixture.engine
           Fixture.next_higher_claim Fixture.categorize_claim "bob" (3, 3)%Z 0%Z
           (Fixture.draws 0 0 0 0 0)).
  - repeat split; eexists; reflexivity.
  - reflexivity.
  - reflexivity.
Defined.

End Decisions.

(** ** Distances between claims *)

Section Distances.
Import LearningAIDiceOpponent.

(** The loop of [_distance_from_next] and [_step_distance] counts the
    steps to the first claim that is not below the target, and stops
    after [fuel] steps. *)
Lemma count_steps_spec (s : t) (cmp : Claim -> Claim -> Z) (nxt : Claim -> Claim)
    (target : Claim) (fuel steps : nat) (cur : Claim) :
  compare_claims s = Some cmp ->
  next_higher_claim s = Some nxt ->
  exists k,
    (k <= fuel)%nat /\
    count_steps s target fuel steps cur = Ok (steps + k)%nat /\
    (forall j, (j < k)%nat -> (cmp (Nat.iter j nxt cur) target < 0)%Z) /\
    ((k < fuel)%nat -> (0 <= cmp (Nat.iter k nxt cur) target)%Z).
Proof.
  intros Hc Hn. revert steps cur.
  induction fuel as [|fuel IH]; intros steps cur; cbn [count_steps];
    rewrite Hc; cbn [call rbind].
  - exists O. split; [lia|]. split.
    + destruct (cmp cur target <? 0)%Z; f_equal; lia.
    + split; intros; lia.
  - destruct (cmp cur target <? 0)%Z eqn:E.
    + rewrite Hn. cbn [call rbind].
      destruct (IH (S steps) (nxt cur)) as (k & Hk & Hrun & Hbelow & Hstop).
      exists (S k). split; [lia|]. split; [rewrite Hrun; f_equal; lia|].
      split.
      * intros [|j] Hj; [cbn; apply Z.ltb_lt; exact E|].
        rewrite Nat.iter_succ_r. apply Hbelow. lia.
      * intros Hlt. rewrite Nat.iter_succ_r. apply Hstop. lia.
    + exists O. split; [lia|]. split; [f_equal; lia|].
      split; [intros; lia|]. intros _. cbn. apply Z.ltb_ge. exact E.
Qed.

(** X6. With the rules set, [_distance_from_next] returns a whole number
    [k] between 0 and 20. It is 0 when the truthful claim of the roll is
    not above the current claim. Otherwise [k] counts the applications of
    [next_higher_claim] needed for the current claim to stop being below
    the truthful claim: every shorter lift is still below it, and the
    search gives up at 20. *)
Theorem distance_from_next_spec (self : t) (cmp : Claim -> Claim -> Z)
    (nxt : Claim -> Claim) (current_claim : Claim) (my_roll : Roll) :
  compare_claims self = Some cmp ->
  next_higher_claim self = Some nxt ->
  let truth := _canonical_claim_from_roll my_roll in
  exists k,
    (k <= 20)%nat /\
    _distance_from_next self current_claim my_roll = Ok (inject_Z (Z.of_nat k)) /\
    ((cmp truth current_claim <= 0)%Z -> k = O) /\
    ((0 < cmp truth current_claim)%Z ->
       (forall j, (j < k)%nat -> (cmp (Nat.iter j nxt current_claim) truth < 0)%Z) /\
       ((k < 20)%nat -> (0 <= cmp (Nat.iter k nxt current_claim) truth)%Z)).
Proof.
  intros Hc Hn truth. unfold _distance_from_next. rewrite Hc. cbn [call rbind].
  fold truth. destruct (cmp truth current_claim <=? 0)%Z eqn:E.
  - exists O. apply Z.leb_le in E. repeat split; intros; lia.
  - apply Z.leb_gt in E.
    destruct (count_steps_spec self cmp nxt truth 20 0 current_claim Hc Hn)
      as (k & Hk & Hrun & Hbelow & Hstop).
    exists k. split; [exact Hk|]. rewrite Hrun. cbn [rbind Nat.add].
    split; [reflexivity|]. split; [intros; lia|]. intros _. split; assumption.
Qed.

Lemma distance_from_next_spec_witness :
  exists k,
    (k <= 20)%nat /\
    _distance_from_next Fixture.engine (3, 1)%Z (5, 2)%Z = Ok (inject_Z (Z.of_nat k)) /\
    (Fixture.compare_claims (Nat.iter 5 Fixture.next_higher_claim (3, 1)%Z) (5, 2) < 0)%Z.
Proof.
  destruct (distance_from_next_spec Fixture.engine Fixture.compare_claims
              Fixture.next_higher_claim (3, 1)%Z (5, 2)%Z eq_refl eq_refl)
    as (k & Hk & Hrun & _).
  exists k. split; [exact Hk|]. split; [exact Hrun | reflexivity].
Defined.

(** X7. With the rules set, [_step_distance(a, b)] returns [k] between
    0 and 30: 0 when [a] is not below [b]; otherwise [k >= 1] is the
    number of applications of [next_higher_claim] after which [a] stops
    being below [b] (capped at 30). In particular the distance is 1
    exactly when [a] is below [b] and its successor is not. *)
Theorem step_distance_spec (self : t) (cmp : Claim -> Claim -> Z)
    (nxt : Claim -> Claim) (a b : Claim) :
  compare_claims self = Some cmp ->
  next_higher_claim self = Some nxt ->
  exists k,
    (k <= 30)%nat /\
    _step_distance self a b = Ok k /\
    ((0 <= cmp a b)%Z -> k = O) /\
    ((cmp a b < 0)%Z ->
       (1 <= k)%nat /\
       (forall j, (j < k)%nat -> (cmp (Nat.iter j nxt a) b < 0)%Z) /\
       ((k < 30)%nat -> (0 <= cmp (Nat.iter k nxt a) b)%Z)) /\
    (k = 1%nat <-> (cmp a b < 0)%Z /\ (0 <= cmp (nxt a) b)%Z).
Proof.
  intros Hc Hn. unfold _step_distance. rewrite Hc. cbn [call rbind].
  destruct (cmp a b >=? 0)%Z eqn:E.
  - exists O. apply Z.geb_le in E. repeat split; intros; lia.
  - assert (Hlt : (cmp a b < 0)%Z).
    { rewrite Z.geb_leb in E. apply Z.leb_gt in E. exact E. }
    destruct (count_steps_spec self cmp nxt b 30 0 a Hc Hn)
      as (k & Hk & Hrun & Hbelow & Hstop).
    exists k. split; [exact Hk|]. split; [exact Hrun|].
    assert (H1 : (1 <= k)%nat).
    { destruct k; [|lia]. specialize (Hstop ltac:(lia)). cbn in Hstop. lia. }
    split; [intros; lia|]. split; [intros _; auto|].
    split.
    + intros ->. split; [exact Hlt|]. apply (Hstop ltac:(lia)).
    + intros [_ Hnext].
      destruct k as [|[|k]]; [lia | reflexivity |].
      specialize (Hbelow 1%nat ltac:(lia)). cbn in Hbelow. lia.
Qed.

Lemma step_distance_spec_witness :
  _step_distance Fixture.engine (3, 2)%Z (4, 1)%Z = Ok 1%nat.
Proof.
  destruct (step_distance_spec Fixture.engine Fixture.compare_claims
              Fixture.next_higher_claim (3, 2)%Z (4, 1)%Z eq_refl eq_refl)
    as (k & _ & Hrun & _ & _ & Hone).
  rewrite Hrun. f_equal. apply Hone. split; vm_compute; [reflexivity | discriminate].
Defined.

End Distances.

(** ** The observation callbacks *)

Section Observations.
Import LearningAIDiceOpponent.

Lemma getitem_then_store (id : string) (f : OpponentProfile.t -> OpponentProfile.t)
    (self : t) :
  bind (profiles_getitem id) (fun opp => profiles_store id (f opp)) self
  = (with_profiles self (<[id := f (profile_of self id)]> (_profiles self)), Ok tt).
Proof.
  unfold bind.
  destruct (profiles_getitem_spec id self) as (self1 & Hget & _ & _ & ->).
  rewrite Hget. unfold profiles_store.
  cbn [_profiles with_profiles]. rewrite insert_insert_eq. reflexivity.
Qed.

Lemma observe_our_raise_resolved_run (self : t) (opponent_id : string)
    (cpu_claim : Claim) (cpu_roll : Roll) (opponent_called : bool) :
  observe_our_raise_resolved opponent_id cpu_claim cpu_roll opponent_called self
  = (with_profiles self
       (<[opponent_id :=
            OpponentProfile.mk
              (OpponentProfile.bluff_rate (profile_of self opponent_id))
              (BetaTracker.update opponent_called
                 (OpponentProfile.call_rate (profile_of self opponent_id)))
              (OpponentProfile.small_raise_pref (profile_of self opponent_id))]>
          (_profiles self)),
     Ok tt).
Proof.
  unfold observe_our_raise_resolved.
  apply (getitem_then_store opponent_id
           (fun opp => OpponentProfile.mk (OpponentProfile.bluff_rate opp)
              (BetaTracker.update opponent_called (OpponentProfile.call_rate opp))
              (OpponentProfile.small_raise_pref opp))).
Qed.

(** The step distance is 1 exactly when [a] is below [b] and its
    successor is not. *)
Lemma step_distance_one (self : t) (cmp : Claim -> Claim -> Z)
    (nxt : Claim -> Claim) (a b : Claim) :
  compare_claims self = Some cmp ->
  next_higher_claim self = Some nxt ->
  exists k,
    _step_distance self a b = Ok k /\
    (k = 1%nat <-> (cmp a b < 0)%Z /\ (0 <= cmp (nxt a) b)%Z).
Proof.
  intros Hc Hn. unfold _step_distance. rewrite Hc. cbn [call rbind].
  destruct (cmp a b >=? 0)%Z eqn:E.
  - exists O. apply Z.geb_le in E. split; [reflexivity|]. split; intros; lia.
  - assert (Hlt : (cmp a b < 0)%Z).
    { rewrite Z.geb_leb in E. apply Z.leb_gt in E. exact E. }
    destruct (count_steps_spec self cmp nxt b 30 0 a Hc Hn)
      as (k & Hk & Hrun & Hbelow & Hstop).
    exists k. split; [exact Hrun|]. split.
    + intros ->. split; [exact Hlt|]. apply (Hstop ltac:(lia)).
    + intros [_ Hnext].
      destruct k as [|[|k]]; [|reflexivity|].
      * specialize (Hstop ltac:(lia)). cbn in Hstop. lia.
      * specialize (Hbelow 1%nat ltac:(lia)). cbn in Hbelow. lia.
Qed.

(** X8. [observe_our_raise_resolved] needs no rules and never raises.
    It adds one to [alpha] (the opponent called) or to [beta] (it did
    not) of the opponent's [call_rate] tracker, creating the default
    profile first for an unknown opponent; the opponent's other trackers,
    the other opponents, the bandit and the pending slot are unchanged. *)
Theorem observe_our_raise_resolved_spec (self : t) (opponent_id : string)
    (cpu_claim : Claim) (cpu_roll : Roll) (opponent_called : bool) :
  let opp := profile_of self opponent_id in
  let out :=
    observe_our_raise_resolved opponent_id cpu_claim cpu_roll opponent_called self in
  out = (with_profiles self
           (<[opponent_id :=
                OpponentProfile.mk (OpponentProfile.bluff_rate opp)
                  (BetaTracker.update opponent_called (OpponentProfile.call_rate opp))
                  (OpponentProfile.small_raise_pref opp)]> (_profiles self)),
         Ok tt) /\
  (forall o, o <> opponent_id -> _profiles (fst out) !! o = _profiles self !! o) /\
  bandit (fst out) = bandit self /\
  _last_context (fst out) = _last_context self.
Proof.
  intros opp out.
  assert (E : out = (with_profiles self
           (<[opponent_id :=
                OpponentProfile.mk (OpponentProfile.bluff_rate opp)
                  (BetaTracker.update opponent_called (OpponentProfile.call_rate opp))
                  (OpponentProfile.small_raise_pref opp)]> (_profiles self)),
         Ok tt)) by apply observe_our_raise_resolved_run.
  split; [exact E|]. rewrite E. cbn. repeat split.
  intros o Ho. apply lookup_insert_ne. congruence.
Qed.

(** X9. With [claim_matches_roll] and [categorize_claim] set,
    [observe_showdown] returns normally and updates exactly one tracker:
    the opponent's bluff tracker of the claim's category, read with the
    prior (1, 1) if it is missing, gets one more success when the claim
    did not match the roll and one more failure when it did. The other
    categories, [call_rate], [small_raise_pref], the other opponents, the
    bandit and the pending slot are unchanged; [caller_is_cpu] is
    ignored. *)
Theorem observe_showdown_spec (self : t) (catf : Claim -> string)
    (matches : Claim -> Roll -> bool) (opponent_id : string)
    (opponent_claim : Claim) (actual_opponent_roll : Roll) (caller_is_cpu : bool) :
  categorize_claim self = Some catf ->
  claim_matches_roll self = Some matches ->
  let opp := profile_of self opponent_id in
  let cat := catf opponent_claim in
  let was_bluff := negb (matches opponent_claim actual_opponent_roll) in
  let out :=
    observe_showdown opponent_id opponent_claim actual_opponent_roll caller_is_cpu self in
  snd out = Ok tt /\
  (exists opp',
     _profiles (fst out) !! opponent_id = Some opp' /\
     OpponentProfile.bluff_rate opp' !! cat
       = Some (BetaTracker.update was_bluff (OpponentProfile.bluff_get opp cat)) /\
     (forall k, k <> cat ->
        OpponentProfile.bluff_rate opp' !! k = OpponentProfile.bluff_rate opp !! k) /\
     OpponentProfile.call_rate opp' = OpponentProfile.call_rate opp /\
     OpponentProfile.small_raise_pref opp' = OpponentProfile.small_raise_pref opp) /\
  (forall o, o <> opponent_id -> _profiles (fst out) !! o = _profiles self !! o) /\
  bandit (fst out) = bandit self /\
  _last_context (fst out) = _last_context self.
Proof.
  intros Hcat Hmr opp cat was_bluff out.
  assert (E : out =
    (with_profiles self
       (<[opponent_id :=
            OpponentProfile.mk
              (<[cat := BetaTracker.update was_bluff (OpponentProfile.bluff_get opp cat)]>
                 (OpponentProfile.bluff_rate opp))
              (OpponentProfile.call_rate opp)
              (OpponentProfile.small_raise_pref opp)]> (_profiles self)), Ok tt)).
  { unfold out, observe_showdown, bind, reads. cbv beta.
    rewrite Hmr, Hcat. cbn [call rbind]. fold was_bluff. fold cat.
    destruct (profiles_getitem_spec opponent_id self) as (self1 & Hget & _ & _ & ->).
    rewrite Hget. fold opp.
    unfold OpponentProfile.setdefault, OpponentProfile.bluff_get, profiles_store.
    cbn [_profiles with_profiles].
    destruct (OpponentProfile.bluff_rate opp !! cat) as [tr|];
      cbv beta iota; cbn [_profiles with_profiles];
      rewrite !insert_insert_eq; reflexivity. }
  rewrite E. cbn [fst snd _profiles with_profiles bandit _last_context].
  split; [reflexivity|]. split; [|split; [|split; reflexivity]].
  - eexists. split; [apply lookup_insert_eq|]. cbn.
    split; [apply lookup_insert_eq|]. split; [|split; reflexivity].
    intros k Hk. apply lookup_insert_ne. congruence.
  - intros o Ho. apply lookup_insert_ne. congruence.
Qed.

Lemma observe_showdown_spec_witness :
  let out := observe_showdown "bob" (3, 3)%Z (4, 2)%Z true Fixture.engine in
  snd out = Ok tt /\
  exists opp',
    _profiles (fst out) !! "bob" = Some opp' /\
    OpponentProfile.bluff_rate opp' !! "double" = Some (BetaTracker.mk (1 + 1) 2).
Proof.
  intros out.
  destruct (observe_showdown_spec Fixture.engine Fixture.categorize_claim
              Fixture.claim_matches_roll "bob" (3, 3)%Z (4, 2)%Z true
              eq_refl eq_refl) as (Hok & (opp' & Hopp & Hcat & _) & _).
  split; [exact Hok|]. exists opp'. split; [exact Hopp | exact Hcat].
Defined.

(** X10. With [compare_claims] and [next_higher_claim] set,
    [observe_opponent_raise_size] returns normally and updates the
    opponent's [small_raise_pref] tracker only: with a success exactly
    when the current claim is below the new claim and one application of
    [next_higher_claim] ends that, with a failure otherwise (a new claim
    that is not above the current one counts as a failure). *)
Theorem observe_opponent_raise_size_spec (self : t) (cmp : Claim -> Claim -> Z)
    (nxt : Claim -> Claim) (opponent_id : string) (current_claim new_claim : Claim) :
  compare_claims self = Some cmp ->
  next_higher_claim self = Some nxt ->
  let opp := profile_of self opponent_id in
  exists small : bool,
    (small = true <->
       (cmp current_claim new_claim < 0)%Z /\
       (0 <= cmp (nxt current_claim) new_claim)%Z) /\
    observe_opponent_raise_size opponent_id current_claim new_claim self
    = (with_profiles self
         (<[opponent_id :=
              OpponentProfile.mk (OpponentProfile.bluff_rate opp)
                (OpponentProfile.call_rate opp)
                (BetaTracker.update small (OpponentProfile.small_raise_pref opp))]>
            (_profiles self)),
       Ok tt).
Proof.
  intros Hc Hn opp.
  destruct (step_distance_one self cmp nxt current_claim new_claim Hc Hn)
    as (k & Hrun & Hone).
  exists (k =? 1)%nat. split.
  - rewrite Nat.eqb_eq. exact Hone.
  - unfold observe_opponent_raise_size, bind at 1, reads. rewrite Hrun.
    apply (getitem_then_store opponent_id
             (fun opp => OpponentProfile.mk (OpponentProfile.bluff_rate opp)
                (OpponentProfile.call_rate opp)
                (BetaTracker.update (k =? 1)%nat
                   (OpponentProfile.small_raise_pref opp)))).
Qed.

Lemma observe_opponent_raise_size_spec_witness :
  exists small : bool,
    small = true /\
    _profiles (fst (observe_opponent_raise_size "bob" (3, 2)%Z (4, 1)%Z
                      Fixture.engine)) !! "bob"
    = Some (OpponentProfile.mk OpponentProfile.default_bluff_rate
              (BetaTracker.mk 1 2)
              (BetaTracker.update small (BetaTracker.mk 1 1))).
Proof.
  destruct (observe_opponent_raise_size_spec Fixture.engine Fixture.compare_claims
              Fixture.next_higher_claim "bob" (3, 2)%Z (4, 1)%Z eq_refl eq_refl)
    as (small & Hsmall & Hrun).
  exists small. split.
  - apply Hsmall. split; vm_compute; [reflexivity | discriminate].
  - rewrite Hrun. cbn [fst _profiles with_profiles]. apply lookup_insert_eq.
Defined.

(** X11. The observers do not assert that the rules are set. With
    [claim_matches_roll] or [categorize_claim] missing, [observe_showdown]
    raises [TypeError]; with [compare_claims] missing,
    [observe_opponent_raise_size] raises [TypeError]; in both cases the
    engine is left as it was, and no profile is created. *)
Theorem observers_without_rules (self : t) (opponent_id : string)
    (claim other : Claim) (roll : Roll) (caller_is_cpu : bool) :
  (claim_matches_roll self = None \/ categorize_claim self = None ->
   observe_showdown opponent_id claim roll caller_is_cpu self = (self, Err TypeError)) /\
  (compare_claims self = None ->
   observe_opponent_raise_size opponent_id claim other self = (self, Err TypeError)).
Proof.
  split.
  - intros H. unfold observe_showdown, bind, reads. cbv beta.
    destruct (claim_matches_roll self) as [mr|]; cbn [call rbind]; [|reflexivity].
    destruct H as [H|H]; [discriminate|]. rewrite H. reflexivity.
  - intros H. unfold observe_opponent_raise_size, bind, reads, _step_distance.
    rewrite H. reflexivity.
Qed.

Lemma observers_without_rules_witness :
  observe_showdown "bob" (3, 3)%Z (4, 2)%Z true (init "CPU")
    = (init "CPU", Err TypeError) /\
  observe_opponent_raise_size "bob" (3, 2)%Z (4, 1)%Z (init "CPU")
    = (init "CPU", Err TypeError).
Proof.
  destruct (observers_without_rules (init "CPU") "bob" (3, 3)%Z (4, 1)%Z (4, 2)%Z true)
    as [H1 _].
  destruct (observers_without_rules (init "CPU") "bob" (3, 2)%Z (4, 1)%Z (4, 2)%Z true)
    as [_ H2].
  split; [apply H1; left; reflexivity | apply H2; reflexivity].
Defined.

End Observations.

(** ** Positive counters *)

Section Positivity.
Import LearningAIDiceOpponent.
Local Open Scope Q_scope.

Lemma update_positive (o : bool) (tr : BetaTracker.t) :
  tracker_positive tr -> tracker_positive (BetaTracker.update o tr).
Proof. intros [Ha Hb]. destruct o; split; cbn; lra. Qed.

Lemma default_profile_positive : profile_positive OpponentProfile.default.
Proof.
  split; [|split; split; reflexivity].
  unfold OpponentProfile.default, OpponentProfile.default_bluff_rate.
  cbn [OpponentProfile.bluff_rate].
  repeat (apply map_Forall_insert_2; [split; reflexivity|]).
  apply map_Forall_empty.
Qed.

Lemma profile_of_positive (self : t) (id : string) :
  engine_positive self -> profile_positive (profile_of self id).
Proof.
  intros Hpos. unfold profile_of.
  destruct (_profiles self !! id) as [p|] eqn:E; cbn.
  - exact (Hpos id p E).
  - apply default_profile_positive.
Qed.

Lemma bluff_get_positive (p : OpponentProfile.t) (cat : string) :
  profile_positive p -> tracker_positive (OpponentProfile.bluff_get p cat).
Proof.
  intros (Hb & _ & _). unfold OpponentProfile.bluff_get.
  destruct (OpponentProfile.bluff_rate p !! cat) as [tr|] eqn:E.
  - exact (Hb cat tr E).
  - split; reflexivity.
Qed.

Lemma store_positive (self : t) (id : string) (p : OpponentProfile.t) :
  engine_positive self -> profile_positive p ->
  engine_positive (with_profiles self (<[id := p]> (_profiles self))).
Proof. intros Hpos Hp. apply map_Forall_insert_2; assumption. Qed.

Lemma frame_positive (id : string) (self self' : t) :
  frame id self self' -> engine_positive self -> engine_positive self'.
Proof.
  intros [c [-> | [_ ->]]] Hpos; [exact Hpos|].
  apply (store_positive self id _ Hpos default_profile_positive).
Qed.

Lemma tracker_positive_mean (tr : BetaTracker.t) :
  tracker_positive tr ->
  BetaTracker.mean tr
  = Ok (BetaTracker.alpha tr / (BetaTracker.alpha tr + BetaTracker.beta tr)).
Proof. intros [Ha Hb]. apply mean_positive; assumption. Qed.

Lemma tracker_positive_thompson (tr : BetaTracker.t) (s : Q) :
  tracker_positive tr -> BetaTracker.thompson tr s = Ok s.
Proof.
  intros [Ha Hb]. unfold BetaTracker.thompson.
  rewrite (proj2 (Qltb_lt _ _) Ha), (proj2 (Qltb_lt _ _) Hb). reflexivity.
Qed.

(** X12. Positive counters are an invariant of the engine: a new engine
    has none but positive trackers, and [decide_action] and the four
    observers keep every counter of every profile positive, whether they
    return or raise. *)
Theorem positive_counters_invariant (numpy : np.Numpy)
    (mk_ctx : option (Claim -> Z -> vec -> Q -> Q -> bool -> Q -> Q -> vec))
    (self : t) (opponent_id : string) (current_claim : option Claim)
    (claim other : Claim) (roll : Roll) (round_index : Z) (rnd : Draws)
    (flag : bool) :
  engine_positive (init "CPU") /\
  (engine_positive self ->
   engine_positive
     (fst (decide_action numpy mk_ctx opponent_id current_claim roll round_index
             rnd self)) /\
   engine_positive (fst (observe_showdown opponent_id claim roll flag self)) /\
   engine_positive (fst (observe_our_raise_resolved opponent_id claim roll flag self)) /\
   engine_positive (fst (observe_opponent_raise_size opponent_id claim other self)) /\
   engine_positive (fst (observe_round_outcome flag self))).
Proof.
  split; [apply map_Forall_empty|]. intros Hpos.
  pose proof (profile_of_positive self opponent_id Hpos) as (Hb & Hc & Hs).
  split; [|split; [|split; [|split]]].
  - eapply frame_positive; [|exact Hpos]. apply decide_action_preserves.
  - unfold observe_showdown, bind, reads. cbv beta.
    destruct (rbind (call (claim_matches_roll self)) _) as [wb|e]; [|exact Hpos].
    destruct (rbind (call (categorize_claim self)) _) as [cat|e]; [|exact Hpos].
    destruct (profiles_getitem_spec opponent_id self) as (self1 & Hget & _ & _ & ->).
    rewrite Hget.
    pose proof (bluff_get_positive _ cat (conj Hb (conj Hc Hs))) as Hg.
    unfold OpponentProfile.bluff_get in Hg.
    unfold OpponentProfile.setdefault, profiles_store.
    destruct (OpponentProfile.bluff_rate (profile_of self opponent_id) !! cat)
      as [tr|] eqn:E; cbv beta iota; cbn [fst _profiles with_profiles];
      rewrite insert_insert_eq; apply (store_positive self _ _ Hpos);
      (split; [|split; assumption]); cbn [OpponentProfile.bluff_rate];
      apply map_Forall_insert_2; try (apply update_positive; exact Hg);
      try exact Hb.
    apply map_Forall_insert_2; [split; reflexivity | exact Hb].
  - rewrite observe_our_raise_resolved_run. cbn [fst].
    apply (store_positive self _ _ Hpos). split; [exact Hb|].
    split; [apply update_positive; exact Hc | exact Hs].
  - unfold observe_opponent_raise_size. unfold bind at 1. unfold reads.
    destruct (_step_distance self claim other) as [k|e]; [|exact Hpos].
    rewrite (getitem_then_store opponent_id
               (fun opp => OpponentProfile.mk (OpponentProfile.bluff_rate opp)
                  (OpponentProfile.call_rate opp)
                  (BetaTracker.update (k =? 1)%nat
                     (OpponentProfile.small_raise_pref opp)))).
    apply (store_positive self _ _ Hpos). split; [exact Hb|].
    split; [exact Hc | apply update_positive; exact Hs].
  - unfold observe_round_outcome.
    destruct (_last_context self) as [[[o a] ctx]|]; [|exact Hpos].
    destruct (LinUCB.update _ _ _) as [bd [u|e]]; exact Hpos.
Qed.

Lemma distance_from_next_ok (self : t) (cmp : Claim -> Claim -> Z)
    (nxt : Claim -> Claim) (cur : Claim) (roll : Roll) :
  compare_claims self = Some cmp ->
  next_higher_claim self = Some nxt ->
  exists dist, _distance_from_next self cur roll = Ok dist.
Proof.
  intros Hc Hn. unfold _distance_from_next. rewrite Hc. cbn [call rbind].
  destruct (cmp _ cur <=? 0)%Z; [eauto|].
  destruct (count_steps_spec self cmp nxt (_canonical_claim_from_roll roll) 20 0 cur
              Hc Hn) as (k & _ & Hrun & _).
  rewrite Hrun. cbn [rbind]. eauto.
Qed.

(** X13. With the rules set and every counter positive, a call of
    [decide_action] that gets past the opening move and the truthful
    fast path always raises [AttributeError]: nothing before line 115
    raises, and [_make_context] is missing there. By then the opponent's
    profile has been stored (the default one if it had none); the bandit,
    the other profiles and the pending slot are as before. The bandit is
    never consulted, and neither a challenge nor a bandit-routed raise is
    ever returned. *)
Theorem decide_action_stops_at_make_context (numpy : np.Numpy)
    (self : t) (cmp : Claim -> Claim -> Z) (opponent_id : string)
    (current_claim : Claim) (my_roll : Roll) (round_index : Z) (rnd : Draws) :
  rules_set self ->
  compare_claims self = Some cmp ->
  engine_positive self ->
  let truth := _canonical_claim_from_roll my_roll in
  ~ ((0 < cmp truth current_claim)%Z /\ (u_truth rnd < 0.65 + truth_bias self)%Q) ->
  decide_action numpy None opponent_id (Some current_claim) my_roll round_index
    rnd self
  = (with_profiles self
       (<[opponent_id := profile_of self opponent_id]> (_profiles self)),
     Err AttributeError).
Proof.
  intros (_ & [nxt Hn] & [catf Hcat] & [mr Hmr]) Hc Hpos truth Hslow.
  pose proof (profile_of_positive self opponent_id Hpos) as Hopp.
  destruct (profiles_getitem_spec opponent_id self)
    as (self1 & Hget & Hframe & _ & Hself1).
  destruct (frame_fields _ _ _ Hframe) as (_ & _ & _ & Hc1 & Hn1 & Hcat1 & _).
  destruct (distance_from_next_ok self cmp nxt current_claim my_roll Hc Hn)
    as [dist Hdist].
  unfold decide_action, bind, assert_rules, reads, get, ret, set_last_context,
    _best_truthful_above.
  cbv beta. rewrite Hc, Hn, Hcat, Hmr. cbn [call rbind]. rewrite Hc.
  cbn [call rbind]. fold truth.
  destruct (0 <? cmp truth current_claim)%Z eqn:E1; cbv beta iota.
  - destruct (Qltb (u_truth rnd) (0.65 + truth_bias self)) eqn:E2.
    + exfalso. apply Hslow. split; [apply Z.ltb_lt; exact E1 | apply Qltb_lt; exact E2].
    + rewrite Hget, Hcat1, Hcat. cbn [call rbind].
      rewrite (tracker_positive_mean _ (bluff_get_positive _ _ Hopp)).
      rewrite (tracker_positive_mean _ (proj1 (proj2 Hopp))).
      rewrite (distance_from_next_rules self1 self), Hdist by assumption.
      cbn [getattr]. rewrite Hself1. reflexivity.
  - rewrite Hget, Hcat1, Hcat. cbn [call rbind].
    rewrite (tracker_positive_mean _ (bluff_get_positive _ _ Hopp)).
    rewrite (tracker_positive_mean _ (proj1 (proj2 Hopp))).
    rewrite (distance_from_next_rules self1 self), Hdist by assumption.
    cbn [getattr]. rewrite Hself1. reflexivity.
Qed.

Lemma decide_action_stops_at_make_context_witness :
  decide_action Fixture.numpy None "bob" (Some (4, 1)%Z) (3, 1)%Z 0%Z
    (Fixture.draws 0 0.9 0 0 0) Fixture.engine
  = (with_profiles Fixture.engine {["bob" := OpponentProfile.default]},
     Err AttributeError).
Proof.
  apply (decide_action_stops_at_make_context Fixture.numpy Fixture.engine
           Fixture.compare_claims "bob" (4, 1)%Z (3, 1)%Z 0%Z
           (Fixture.draws 0 0.9 0 0 0)).
  - repeat split; eexists; reflexivity.
  - reflexivity.
  - intros k p Hk. vm_compute in Hk. discriminate.
  - intros [Habove _]. vm_compute in Habove. discriminate.
Defined.

End Positivity.

(** ** state and load_state, continued *)

Section SaveRestore.
Import LearningAIDiceOpponent.

Lemma pair_of_tracker (tr : BetaTracker.t) : pair_tracker (tracker_pair tr) = tr.
Proof. destruct tr; reflexivity. Qed.

Lemma union_defaults_present (p : OpponentProfile.t) :
  has_defaults p ->
  OpponentProfile.bluff_rate p ∪ OpponentProfile.default_bluff_rate
  = OpponentProfile.bluff_rate p.
Proof.
  intros Hd. apply map_eq. intros k. rewrite lookup_union.
  destruct (OpponentProfile.bluff_rate p !! k) as [tr|] eqn:E.
  - destruct (OpponentProfile.default_bluff_rate !! k); reflexivity.
  - destruct (OpponentProfile.default_bluff_rate !! k) as [tr|] eqn:Ed; [|reflexivity].
    destruct (Hd k (ex_intro _ _ Ed)) as [x Hx]. congruence.
Qed.

(** Rebuilding a profile from what [state()] wrote for it gives it
    back, provided it has the default categories. *)
Lemma load_profile_state (p : OpponentProfile.t) :
  has_defaults p -> load_profile (profile_state p) = p.
Proof.
  intros Hd. destruct p as [br cr sr].
  assert (Hbr : OpponentProfile.bluff_rate
                  (load_profile (profile_state (OpponentProfile.mk br cr sr))) = br).
  { rewrite load_profile_bluff_rate. cbn [profile_state Saved.bluff_rate
      OpponentProfile.bluff_rate].
    rewrite <- map_fmap_compose.
    rewrite (map_fmap_ext _ id) by (intros; apply pair_of_tracker).
    rewrite map_fmap_id. apply (union_defaults_present _ Hd). }
  unfold load_profile in *. cbn [OpponentProfile.bluff_rate] in Hbr. rewrite Hbr.
  cbn. destruct cr, sr. reflexivity.
Qed.

Lemma load_profile_has_defaults (data : Saved.profile) :
  has_defaults (load_profile data).
Proof.
  intros k [tr Hk]. rewrite load_profile_bluff_rate, lookup_union, lookup_fmap.
  rewrite Hk. destruct (Saved.bluff_rate data !! k); cbn; eauto.
Qed.

(** X14. [state()] followed by [load_state] on the same engine is the
    identity: when the bandit's [A] is rectangular and every profile has
    the three default categories, loading what [state()] returns gives
    back the very same engine. *)
Theorem state_then_load_state (self : t) :
  np.rows_have (np.ncols (LinUCB.A (bandit self))) (LinUCB.A (bandit self)) = true ->
  engine_has_defaults self ->
  load_state (state self) self = (self, Ok tt).
Proof.
  intros Hrect Hdef.
  rewrite load_state_run by exact Hrect.
  cbn [state Saved.bandit Saved.profiles Saved.A Saved.b].
  change (default ∅ (Some (profile_state <$> _profiles self)))
    with (profile_state <$> _profiles self).
  f_equal.
  assert (Hp : (load_profile <$> (profile_state <$> _profiles self)) ∪ _profiles self
               = _profiles self).
  { apply map_eq. intros id. rewrite lookup_union, !lookup_fmap.
    destruct (_profiles self !! id) as [p|] eqn:E; cbn; [|reflexivity].
    rewrite (load_profile_state p (Hdef id p E)). reflexivity. }
  rewrite Hp. destruct self as [? ? ? ? ? ? ? [? ? ? ?] ? ? ? ?]. reflexivity.
Qed.

Lemma state_then_load_state_witness :
  let self :=
    with_profiles Fixture.engine
      {["bob" := OpponentProfile.mk
                   (<["special" := BetaTracker.mk 2 1]> OpponentProfile.default_bluff_rate)
                   (BetaTracker.mk 1 3) (BetaTracker.mk 2 1)]} in
  load_state (state self) self = (self, Ok tt).
Proof.
  intros self. apply state_then_load_state.
  - reflexivity.
  - intros id p Hp. cbn [self _profiles with_profiles] in Hp.
    apply lookup_singleton_Some in Hp as [_ <-].
    intros k [tr Hk]. cbn [OpponentProfile.bluff_rate].
    destruct (decide (k = "special")) as [->|Hne].
    + vm_compute in Hk. discriminate.
    + rewrite lookup_insert_ne by congruence. eauto.
Defined.

(** X15. Every profile the engine ever holds has the three default
    categories: a new engine has no profile, [load_state] rebuilds each
    profile from a new [OpponentProfile()], and [decide_action] and the
    observers only add profiles and categories. *)
Theorem default_categories_invariant (numpy : np.Numpy)
    (mk_ctx : option (Claim -> Z -> vec -> Q -> Q -> bool -> Q -> Q -> vec))
    (self : t) (st : Saved.t) (opponent_id : string) (current_claim : option Claim)
    (claim other : Claim) (roll : Roll) (round_index : Z) (rnd : Draws)
    (flag : bool) :
  engine_has_defaults (init "CPU") /\
  (engine_has_defaults self ->
   engine_has_defaults (fst (load_state st self)) /\
   engine_has_defaults
     (fst (decide_action numpy mk_ctx opponent_id current_claim roll round_index
             rnd self)) /\
   engine_has_defaults (fst (observe_showdown opponent_id claim roll flag self)) /\
   engine_has_defaults (fst (observe_our_raise_resolved opponent_id claim roll flag self)) /\
   engine_has_defaults (fst (observe_opponent_raise_size opponent_id claim other self)) /\
   engine_has_defaults (fst (observe_round_outcome flag self))).
Proof.
  split; [apply map_Forall_empty|]. intros Hdef.
  assert (Hdflt : has_defaults OpponentProfile.default) by (intros k Hk; exact Hk).
  assert (Hopp : has_defaults (profile_of self opponent_id)).
  { unfold profile_of. destruct (_profiles self !! opponent_id) as [p|] eqn:E; cbn;
      [exact (Hdef _ _ E) | exact Hdflt]. }
  assert (Hstore : forall p, has_defaults p ->
            engine_has_defaults (with_profiles self (<[opponent_id := p]> (_profiles self))))
    by (intros p Hp; apply map_Forall_insert_2; assumption).
  split; [|split; [|split; [|split; [|split]]]].
  - unfold load_state.
    destruct (match Saved.bandit st with Some _ => _ | None => _ end) as [bd|e];
      [|exact Hdef].
    unfold engine_has_defaults. cbn [fst _profiles with_profiles with_bandit].
    rewrite (fold_insert_union _ load_profile) by reflexivity.
    intros id p. rewrite lookup_union, lookup_fmap.
    destruct (default ∅ (Saved.profiles st) !! id) as [data|]; cbn.
    + destruct (_profiles self !! id); cbn; intros [= <-];
        apply load_profile_has_defaults.
    + destruct (_profiles self !! id) as [q|] eqn:E; cbn; intros [= <-].
      exact (Hdef _ _ E).
  - pose proof (decide_action_preserves numpy mk_ctx opponent_id current_claim roll
                  round_index rnd self) as [c [-> | [_ ->]]];
      [exact Hdef | apply Hstore; exact Hdflt].
  - unfold observe_showdown, bind, reads. cbv beta.
    destruct (rbind (call (claim_matches_roll self)) _) as [wb|e]; [|exact Hdef].
    destruct (rbind (call (categorize_claim self)) _) as [cat|e]; [|exact Hdef].
    destruct (profiles_getitem_spec opponent_id self) as (self1 & Hget & _ & _ & ->).
    rewrite Hget. unfold OpponentProfile.setdefault, profiles_store.
    destruct (OpponentProfile.bluff_rate (profile_of self opponent_id) !! cat)
      as [tr|] eqn:E; cbv beta iota; cbn [fst _profiles with_profiles];
      rewrite insert_insert_eq; apply Hstore; intros k Hk;
      cbn [OpponentProfile.bluff_rate];
      (destruct (decide (cat = k)) as [<-|Hne];
       [rewrite lookup_insert_eq; eauto|]);
      rewrite !lookup_insert_ne by exact Hne; apply Hopp; exact Hk.
  - rewrite observe_our_raise_resolved_run. cbn [fst].
    apply Hstore. exact Hopp.
  - unfold observe_opponent_raise_size. unfold bind at 1. unfold reads.
    destruct (_step_distance self claim other) as [k|e]; [|exact Hdef].
    rewrite (getitem_then_store opponent_id
               (fun opp => OpponentProfile.mk (OpponentProfile.bluff_rate opp)
                  (OpponentProfile.call_rate opp)
                  (BetaTracker.update (k =? 1)%nat
                     (OpponentProfile.small_raise_pref opp)))).
    apply Hstore. exact Hopp.
  - unfold observe_round_outcome.
    destruct (_last_context self) as [[[o a] ctx]|]; [|exact Hdef].
    destruct (LinUCB.update _ _ _) as [bd [u|e]]; exact Hdef.
Qed.

(** X16. [load_state] on a ragged matrix: [np.array] refuses it, the
    call raises [ValueError] and nothing has been loaded, the profiles
    of the state included. *)
Theorem load_state_ragged (st : Saved.t) (bs : Saved.bandit_state) (self : t) :
  Saved.bandit st = Some bs ->
  np.rows_have (np.ncols (Saved.A bs)) (Saved.A bs) = false ->
  load_state st self = (self, Err ValueError).
Proof.
  intros Hb Hr. unfold load_state, np.array2. rewrite Hb, Hr. reflexivity.
Qed.

Lemma load_state_ragged_witness :
  load_state
    (Saved.mk (Some {["bob" := Saved.mk_profile ∅ (1, 2)%Q (1, 1)%Q]})
       (Some (Saved.mk_bandit [[1; 0]; [0]]%Q [0; 0]%Q)))
    Fixture.engine
  = (Fixture.engine, Err ValueError).
Proof.
  apply (load_state_ragged _ (Saved.mk_bandit [[1; 0]; [0]]%Q [0; 0]%Q));
    reflexivity.
Defined.

(** X17. What [load_state] keeps: when it returns, the rules, the tuning
    constants, the pending slot and the bandit's [d] and [alpha] are as
    before; a state without the "bandit" key leaves [A] and [b] alone;
    the profile of an opponent the state does not mention is kept, and
    the profile of an opponent it mentions does not depend on the one the
    engine had. *)
Theorem load_state_frame (st : Saved.t) (self self' : t) :
  load_state st self = (self', Ok tt) ->
  compare_claims self' = compare_claims self /\
  next_higher_claim self' = next_higher_claim self /\
  categorize_claim self' = categorize_claim self /\
  claim_matches_roll self' = claim_matches_roll self /\
  call_risk_bias self' = call_risk_bias self /\
  raise_bluff_cap self' = raise_bluff_cap self /\
  truth_bias self' = truth_bias self /\
  _last_context self' = _last_context self /\
  LinUCB.d (bandit self') = LinUCB.d (bandit self) /\
  LinUCB.alpha (bandit self') = LinUCB.alpha (bandit self) /\
  (Saved.bandit st = None -> bandit self' = bandit self) /\
  (forall id, default ∅ (Saved.profiles st) !! id = None ->
     _profiles self' !! id = _profiles self !! id) /\
  (forall id data, default ∅ (Saved.profiles st) !! id = Some data ->
     _profiles self' !! id = Some (load_profile data)).
Proof.
  intros Hload. pose proof (load_state_ok_inv st self self' Hload) as Hp.
  unfold load_state in Hload.
  destruct (Saved.bandit st) as [bs|].
  - destruct (np.array2 (Saved.A bs)) as [A|e]; cbn [rbind] in Hload; [|discriminate].
    injection Hload as <-. cbn. repeat split; try discriminate.
    + intros id Hid. cbn in Hp. rewrite Hp, lookup_union, lookup_fmap, Hid. cbn.
      destruct (_profiles self !! id); reflexivity.
    + intros id data Hid. cbn in Hp. rewrite Hp, lookup_union, lookup_fmap, Hid. cbn.
      destruct (_profiles self !! id); reflexivity.
  - injection Hload as <-. cbn. repeat split.
    + intros id Hid. cbn in Hp. rewrite Hp, lookup_union, lookup_fmap, Hid. cbn.
      destruct (_profiles self !! id); reflexivity.
    + intros id data Hid. cbn in Hp. rewrite Hp, lookup_union, lookup_fmap, Hid. cbn.
      destruct (_profiles self !! id); reflexivity.
Qed.

Lemma load_state_frame_witness :
  let self := fst (observe_showdown "bob" (4, 1)%Z (4, 2)%Z true Fixture.engine) in
  let st := Saved.mk (Some {["amy" := Saved.mk_profile ∅ (1, 2)%Q (1, 1)%Q]}) None in
  bandit (fst (load_state st self)) = bandit self /\
  _profiles (fst (load_state st self)) !! "bob" = _profiles self !! "bob".
Proof.
  intros self st.
  destruct (load_state_frame st self (fst (load_state st self)))
    as (_ & _ & _ & _ & _ & _ & _ & _ & _ & _ & Hb & Hkeep & _).
  - reflexivity.
  - split; [apply Hb; reflexivity|]. apply Hkeep. reflexivity.
Defined.

End SaveRestore.

(** ** LinUCB: update and choose *)

Section Bandit.
Local Open Scope Q_scope.

Lemma rows_have_Forall (n : nat) (M : matrix) :
  Forall (fun r => length r = n) M -> np.rows_have n M = true.
Proof.
  intros H. unfold np.rows_have. apply forallb_forall. intros r Hr.
  apply Nat.eqb_eq. rewrite Forall_forall in H. apply H.
  apply list_elem_of_In. exact Hr.
Qed.

(** X18. [update] on a vector of the bandit's size [n] returns normally
    and does [A += x xT; b += reward * x]: entry [(i, j)] of [A] grows by
    [x_i * x_j], entry [i] of [b] by [reward * x_i]; [d] and [alpha] are
    kept, and so are the sizes of [A] and [b]. *)
Theorem LinUCB_update_accumulates (n : nat) (bd : LinUCB.t) (x : vec) (reward : Q) :
  is_square n (LinUCB.A bd) ->
  length (LinUCB.b bd) = n ->
  length x = n ->
  exists A' b',
    LinUCB.update bd x reward
      = (LinUCB.mk (LinUCB.d bd) (LinUCB.alpha bd) A' b', Ok tt) /\
    is_square n A' /\ length b' = n /\
    (forall i j a xi xj,
       entry (LinUCB.A bd) i j = Some a -> x !! i = Some xi -> x !! j = Some xj ->
       entry A' i j = Some (a + xi * xj)) /\
    (forall i bi xi,
       LinUCB.b bd !! i = Some bi -> x !! i = Some xi ->
       b' !! i = Some (bi + reward * xi)).
Proof.
  intros Hsq Hb Hx. pose proof Hsq as [HA Hrows].
  exists (np.madd (LinUCB.A bd) (np.outer x)), (np.vadd (LinUCB.b bd) (np.scale reward x)).
  assert (EA : np.iadd_square (LinUCB.A bd) (np.outer x)
               = Some (np.madd (LinUCB.A bd) (np.outer x))).
  { destruct x as [|c [|c2 x']].
    - cbn in Hx. rewrite <- Hx in *. clear Hx. cbn. rewrite HA. cbn.
      rewrite (rows_have_Forall 0 _ Hrows). reflexivity.
    - cbn in Hx. rewrite <- Hx in *. clear Hx. cbn [np.outer map np.scale np.iadd_square].
      rewrite (broadcast_outer 1 c _ Hsq). reflexivity.
    - unfold np.iadd_square.
      change (np.outer (c :: c2 :: x'))
        with (np.scale c (c :: c2 :: x') :: np.scale c2 (c :: c2 :: x')
              :: map (fun a => np.scale a (c :: c2 :: x')) x') at 1.
      cbv beta iota. rewrite length_outer, HA, Hx, Nat.eqb_refl.
      rewrite (rows_have_Forall n _ Hrows). reflexivity. }
  assert (Eb : np.iadd_col (LinUCB.b bd) (np.scale reward x)
               = Some (np.vadd (LinUCB.b bd) (np.scale reward x))).
  { destruct x as [|c [|c2 x']].
    - cbn. rewrite Hb. cbn in Hx. rewrite <- Hx in *. clear Hx. reflexivity.
    - cbn in Hx. rewrite <- Hx in *. clear Hx. destruct (LinUCB.b bd) as [|b0 [|b1 bs]]; cbn in Hb;
        try discriminate. reflexivity.
    - unfold np.iadd_col. cbn [np.scale map]. cbn [np.scale map] in *.
      rewrite Hb, <- Hx. cbn [length]. rewrite length_map, Nat.eqb_refl. reflexivity. }
  split; [unfold LinUCB.update; rewrite EA; cbn [LinUCB.b LinUCB.d LinUCB.alpha LinUCB.A];
          rewrite Eb; reflexivity|].
  split; [apply madd_outer_square; assumption|].
  split; [unfold np.vadd; rewrite length_zip_with, length_scale; lia|].
  split.
  - intros i j a xi xj Ha Hi Hj. rewrite entry_madd, entry_outer, Ha, Hi, Hj. reflexivity.
  - intros i bi xi Hbi Hi. unfold np.vadd, np.scale.
    rewrite lookup_zip_with, Hbi, list_lookup_fmap, Hi. reflexivity.
Qed.

Lemma LinUCB_update_accumulates_witness :
  exists A' b',
    LinUCB.update (LinUCB.init 2 0.9) [3; 4] (-1)
      = (LinUCB.mk 2 0.9 A' b', Ok tt) /\
    entry A' 0 1 = Some (0 + 3 * 4) /\ b' !! 1%nat = Some (0 + -1 * 4).
Proof.
  destruct (LinUCB_update_accumulates 2 (LinUCB.init 2 0.9) [3; 4] (-1))
    as (A' & b' & Hrun & _ & _ & HA & Hb).
  - split; [reflexivity|]. repeat constructor.
  - reflexivity.
  - reflexivity.
  - exists A', b'. split; [exact Hrun|]. split.
    + apply (HA 0%nat 1%nat 0 3 4); reflexivity.
    + apply (Hb 1%nat 0 4); reflexivity.
Defined.

(** X19. [update] on a vector whose size is neither the bandit's nor 1
    (a vector of one entry is broadcast by numpy) raises [ValueError] and
    changes nothing. *)
Theorem LinUCB_update_wrong_size (n : nat) (bd : LinUCB.t) (x : vec) (reward : Q) :
  is_square n (LinUCB.A bd) ->
  length x <> n -> length x <> 1%nat ->
  LinUCB.update bd x reward = (bd, Err ValueError).
Proof.
  intros [HA Hrows] Hn H1. unfold LinUCB.update.
  assert (E : np.iadd_square (LinUCB.A bd) (np.outer x) = None).
  { destruct x as [|c [|c2 x']].
    - cbn. cbn in Hn. rewrite HA.
      destruct n; [congruence | reflexivity].
    - cbn in H1. congruence.
    - unfold np.iadd_square.
      change (np.outer (c :: c2 :: x'))
        with (np.scale c (c :: c2 :: x') :: np.scale c2 (c :: c2 :: x')
              :: map (fun a => np.scale a (c :: c2 :: x')) x') at 1.
      cbv beta iota. rewrite length_outer, HA.
      rewrite (proj2 (Nat.eqb_neq _ _)) by congruence. reflexivity. }
  rewrite E. reflexivity.
Qed.

Lemma LinUCB_update_wrong_size_witness :
  LinUCB.update (LinUCB.init 9 0.9) [1; 2; 3] 1
  = (LinUCB.init 9 0.9, Err ValueError).
Proof.
  apply (LinUCB_update_wrong_size 9).
  - apply eye_square.
  - cbn. lia.
  - cbn. lia.
Defined.





End Bandit.

(** * Properties in binary64 *)

(** ** BetaTracker *)

Section TrackerBinary64.
Import PrimFloat.














End TrackerBinary64.

(** ** The design matrix *)

Section DesignMatrixBinary64.
Import PrimFloat.





















End DesignMatrixBinary64.
